(** * Smart Wearable Platform API: the join and aggregation layer

    A shallow embedding of [src/main.py] and [src/schemas.py].

    - The pydantic classes of [schemas.py] are records, one module per
      class; [Optional] fields are [option]s, [Literal] fields are
      enumerations, and the untyped [dict] of a location is a finite map
      from field names to scalar values.
    - A document read back from the store is the dump of the class of its
      collection, so [doc.get("f", default)] on a field the class requires
      reads the field; the defaults matter where the code itself supplies
      an empty dict ([x or {}]) and are modelled there.
    - Python [int] is [Z]; a [str] is the [string] of its UTF-8 bytes.
      [str.lower] and [str.title] work on Unicode text and are taken from
      the library as they are (the class [Py.Str]); what the library does
      on ASCII text is written out and assumed only where a statement
      says so.
    - [datetime] is a count of microseconds since the epoch, and the clock
      reading of [datetime.utcnow()] is an argument of the endpoint.
    - [database.py] is not among the sources: the store is a record of
      the five collections, each a list in the order a query returns it,
      with [get_documents] and [create_document] as the specification
      describes them.
    - The ECG waveform is computed in binary64 floats; [math.sin] and the
      conversion [int(x)] are taken from the library as they are (the
      class [Ecg.Math]). *)

From Stdlib Require Import ZArith String Ascii List Bool Lia.
From Stdlib Require Import DecimalString.
From Stdlib Require Import Floats.PrimFloat.
From Stdlib Require Import Numbers.Cyclic.Int63.Uint63.
From stdpp Require Import base option list strings gmap.

Set Warnings "-inexact-float".

Local Open Scope string_scope.
Local Open Scope Z_scope.

(* ------------------------------------------------------------------ *)
(** ** Python built-ins used by the endpoints *)

Module Py.

(** [len(xs)] *)
Definition len {A : Type} (xs : list A) : Z := Z.of_nat (length xs).

(** One character of [str.lower()]. *)
Definition lower_ascii (c : ascii) : ascii :=
  let n := nat_of_ascii c in
  if ((65 <=? n) && (n <=? 90))%nat then ascii_of_nat (n + 32) else c.

(** [s.lower()] of a text of ASCII characters. *)
Fixpoint ascii_lower (s : string) : string :=
  match s with
  | EmptyString => EmptyString
  | String c t => String (lower_ascii c) (ascii_lower t)
  end.

Definition is_upper (c : ascii) : bool :=
  let n := nat_of_ascii c in ((65 <=? n) && (n <=? 90))%nat.

Definition is_lower (c : ascii) : bool :=
  let n := nat_of_ascii c in ((97 <=? n) && (n <=? 122))%nat.

Definition upper_ascii (c : ascii) : ascii :=
  if is_lower c then ascii_of_nat (nat_of_ascii c - 32) else c.

(** [s.title()] of a text of ASCII characters: a letter that follows a
letter is lowered, any other letter is raised. *)
Fixpoint ascii_title_from (prev_cased : bool) (s : string) : string :=
  match s with
  | EmptyString => EmptyString
  | String c t =>
      String (if prev_cased then lower_ascii c else upper_ascii c)
        (ascii_title_from (is_upper c || is_lower c) t)
  end.

Definition ascii_title (s : string) : string := ascii_title_from false s.

(** Every byte of the text is an ASCII character. *)
Fixpoint is_ascii (s : string) : bool :=
  match s with
  | EmptyString => true
  | String c t => (nat_of_ascii c <? 128)%nat && is_ascii t
  end.

(** The methods of [str] that the code calls and that depend on the
Unicode tables: [s.lower()] and [s.title()]. *)
Class Str : Type := {
  lower : string -> string;
  title : string -> string
}.

(** On ASCII text [s.lower()] lowers the letters A to Z and nothing else. *)
Definition lower_on_ascii {S : Str} : Prop :=
  forall s, is_ascii s = true -> lower s = ascii_lower s.


(** The two methods as they are on ASCII text, applied to every byte. *)
Definition ascii_str : Str :=
  {| lower := ascii_lower; title := ascii_title |}.

(** A byte that continues a UTF-8 character: 10xxxxxx. *)
Definition is_continuation (c : ascii) : bool :=
  let n := nat_of_ascii c in ((128 <=? n) && (n <? 192))%nat.

(** [s[:n]]: the first [n] characters of the text. *)
Fixpoint take_chars (n : nat) (s : string) : string :=
  match s with
  | EmptyString => EmptyString
  | String c t =>
      if is_continuation c then String c (take_chars n t)
      else match n with
           | O => EmptyString
           | S n' => String c (take_chars n' t)
           end
  end.

(** [len(s)]: the number of characters of the text. *)
Fixpoint char_count (s : string) : nat :=
  match s with
  | EmptyString => O
  | String c t =>
      if is_continuation c then char_count t else S (char_count t)
  end.

(** [sub in s] on strings: [sub] occurs in [s] at some offset.  On the
bytes of well-formed UTF-8 an occurrence starts and ends where a
character does, so these are the occurrences among the characters. *)
Fixpoint contains (sub s : string) : bool :=
  String.prefix sub s ||
  match s with
  | EmptyString => false
  | String _ t => contains sub t
  end.

(** Truth value of a string: the empty string is false. *)
Definition truthy_str (s : string) : bool :=
  match s with EmptyString => false | _ => true end.

(** Truth value of an [Optional[str]] query parameter, the test [if q:]. *)
Definition truthy (q : option string) : bool :=
  match q with
  | Some s => truthy_str s
  | None => false
  end.

(** [s or d] for a [str] [s]. *)
Definition or_str (s d : string) : string :=
  if truthy_str s then s else d.

(** [x or ""] for an [Optional[str]]. *)
Definition or_empty (x : option string) : string :=
  match x with
  | Some s => if truthy_str s then s else ""
  | None => ""
  end.

(** [enumerate(xs, start)] *)
Fixpoint enumerate {A : Type} (xs : list A) (start : Z) : list (Z * A) :=
  match xs with
  | [] => []
  | x :: t => (start, x) :: enumerate t (start + 1)
  end.

(** [range(n)] *)
Definition range (n : nat) : list Z := map Z.of_nat (seq 0 n).

(** Scalars found in the untyped dicts of the documents. *)
Inductive value : Type :=
| VNone
| VBool (b : bool)
| VInt (z : Z)
| VFloat (f : float)
| VStr (s : string).

(** [d.get(k)] on a dict of scalars: [None] when the key is absent. *)
Definition get (d : gmap string value) (k : string) : value :=
  default VNone (d !! k).

(** [d or {}] for an [Optional[dict]]; an empty dict is false as well. *)
Definition or_dict {V : Type} (d : option (gmap string V)) : gmap string V :=
  default ∅ d.

End Py.

(* ------------------------------------------------------------------ *)
(** ** Dates and times *)

Module Datetime.

(** Microseconds since 1970-01-01T00:00:00 UTC. *)
Definition datetime : Type := Z.

(** [timedelta(hours=h, minutes=m)] *)
Definition timedelta (hours minutes : Z) : Z :=
  (hours * 3600 + minutes * 60) * 1000000.

Definition day_us : Z := 86400 * 1000000.

(** Year, month and day of a day number counted from the epoch, in the
    proleptic Gregorian calendar. *)
Definition civil_from_days (z : Z) : Z * Z * Z :=
  let z := z + 719468 in
  let era := z / 146097 in
  let doe := z - era * 146097 in
  let yoe := (doe - doe / 1460 + doe / 36524 - doe / 146096) / 365 in
  let doy := doe - (365 * yoe + yoe / 4 - yoe / 100) in
  let mp := (5 * doy + 2) / 153 in
  let d := doy - (153 * mp + 2) / 5 + 1 in
  let m := if mp <? 10 then mp + 3 else mp - 9 in
  let y := yoe + era * 400 in
  (if m <=? 2 then y + 1 else y, m, d).

Definition decimal (z : Z) : string := NilZero.string_of_int (Z.to_int z).

Definition two_digits (z : Z) : string :=
  if z <? 10 then "0" +:+ decimal z else decimal z.

(** [z] in decimal, with zeros in front up to [width] characters. *)
Definition zero_padded (width : nat) (z : Z) : string :=
  let s := decimal z in
  String.concat "" (repeat "0" (width - String.length s)) +:+ s.

(** [t.isoformat()]: the microseconds are printed only when there are
    some. *)
Definition isoformat (t : datetime) : string :=
  let '(y, m, d) := civil_from_days (t / day_us) in
  let us := t mod day_us in
  let secs := us / 1000000 in
  let micro := us mod 1000000 in
  zero_padded 4 y +:+ "-" +:+ zero_padded 2 m +:+ "-" +:+ zero_padded 2 d
  +:+ "T" +:+ zero_padded 2 (secs / 3600)
  +:+ ":" +:+ zero_padded 2 (secs / 60 mod 60)
  +:+ ":" +:+ zero_padded 2 (secs mod 60)
  +:+ (if micro =? 0 then "" else "." +:+ zero_padded 6 micro).

(** [t.strftime("%Y-%m-%d")] *)
Definition strftime_ymd (t : datetime) : string :=
  let '(y, m, d) := civil_from_days (t / day_us) in
  decimal y +:+ "-" +:+ two_digits m +:+ "-" +:+ two_digits d.

End Datetime.

Import Datetime.

(* ------------------------------------------------------------------ *)
(** ** Schemas ([schemas.py]) *)

(** [class Driver(BaseModel)] *)
Module Driver.
Inductive Status : Type := active | inactive.
Record t : Type := {
  name : string;
  employee_id : string;
  phone : option string;
  status : Status
}.
End Driver.

(** [class Device(BaseModel)] *)
Module Device.
Record t : Type := {
  device_id : string;
  driver_id : option string;
  driver_name : option string;
  battery : Z;
  is_online : bool;
  last_location : option (gmap string Py.value)
}.
End Device.

(** [class HealthRecord(BaseModel)] *)
Module HealthRecord.
Record t : Type := {
  driver_id : string;
  driver_name : string;
  device_id : string;
  timestamp : datetime;
  heart_rate : Z;
  bp_systolic : Z;
  bp_diastolic : Z;
  temperature : float;
  calories : Z;
  steps : Z;
  duration_minutes : Z;
  kilometers : float
}.
End HealthRecord.

(** [class SleepSegment(BaseModel)] *)
Module SleepSegment.
Inductive Type_ : Type := light | deep | awake | rem.
Record t : Type := {
  start : datetime;
  end_ : datetime;
  type : Type_
}.
End SleepSegment.

(** [class SleepRecord(BaseModel)] *)
Module SleepRecord.
Record t : Type := {
  driver_id : string;
  driver_name : string;
  device_id : string;
  date : string;
  score : Z;
  duration_minutes : Z;
  segments : list SleepSegment.t
}.
End SleepRecord.

(** [class Event(BaseModel)] *)
Module Event.
Inductive StatusEvent : Type :=
| SOS | FallDown | LowBattery | RemoveSmartWearable.

(** The string a [status_event] is stored as. *)
Definition status_event_str (s : StatusEvent) : string :=
  match s with
  | SOS => "SOS"
  | FallDown => "Fall Down"
  | LowBattery => "Low Battery"
  | RemoveSmartWearable => "Remove Smart Wearable"
  end.

Record t : Type := {
  driver_id : string;
  driver_name : string;
  device_id : string;
  timestamp : datetime;
  status_event : StatusEvent;
  location : option (gmap string Py.value)
}.
End Event.

(* ------------------------------------------------------------------ *)
(** ** The record store ([database.py]) *)

(** The state of the store: the documents of each collection, in the order
    in which a query returns them. *)
Record Store : Type := {
  driver : list Driver.t;
  device : list Device.t;
  healthrecord : list HealthRecord.t;
  sleeprecord : list SleepRecord.t;
  event : list Event.t
}.

Definition empty_store : Store :=
  {| driver := []; device := []; healthrecord := []; sleeprecord := [];
     event := [] |}.

(** [to_collection(name)] *)
Definition to_collection {S : Py.Str} (name : string) : string :=
  Py.lower name.

(** A collection of the store: its name, which is what [to_collection]
    makes of the name in the source, and how its documents are read and
    replaced. *)
Record Collection (A : Type) : Type := {
  coll_name : string;
  coll_docs : Store -> list A;
  coll_put : list A -> Store -> Store
}.
Arguments coll_name {A} _.
Arguments coll_docs {A} _ _.
Arguments coll_put {A} _ _ _.

Definition driver_c : Collection Driver.t :=
  {| coll_name := "driver";
     coll_docs := driver;
     coll_put := fun l st =>
       {| driver := l; device := device st; healthrecord := healthrecord st;
          sleeprecord := sleeprecord st; event := event st |} |}.

Definition device_c : Collection Device.t :=
  {| coll_name := "device";
     coll_docs := device;
     coll_put := fun l st =>
       {| driver := driver st; device := l; healthrecord := healthrecord st;
          sleeprecord := sleeprecord st; event := event st |} |}.

Definition healthrecord_c : Collection HealthRecord.t :=
  {| coll_name := "healthrecord";
     coll_docs := healthrecord;
     coll_put := fun l st =>
       {| driver := driver st; device := device st; healthrecord := l;
          sleeprecord := sleeprecord st; event := event st |} |}.

Definition sleeprecord_c : Collection SleepRecord.t :=
  {| coll_name := "sleeprecord";
     coll_docs := sleeprecord;
     coll_put := fun l st =>
       {| driver := driver st; device := device st;
          healthrecord := healthrecord st; sleeprecord := l;
          event := event st |} |}.

Definition event_c : Collection Event.t :=
  {| coll_name := "event";
     coll_docs := event;
     coll_put := fun l st =>
       {| driver := driver st; device := device st;
          healthrecord := healthrecord st; sleeprecord := sleeprecord st;
          event := l |} |}.

(** One entry [field: v] of a query filter: the document's [field] must
    equal [v]. *)
Inductive FieldEq (A : Type) : Type :=
| field_eq {B : Type} `{EqDecision B} (field : A -> B) (v : B).
Arguments field_eq {A B _} field v.

Definition field_matches {A : Type} (doc : A) (c : FieldEq A) : bool :=
  match c with
  | field_eq field v => bool_decide (field doc = v)
  end.

(** Modelled from the spec: [database.get_documents] is not among the
    sources.  [query(collection, filter)] returns the documents of the
    collection for which every field of the filter has exactly the given
    value; without a filter it returns them all.  The sequence comes back
    in the store's order. *)
Definition get_documents {A : Type} (c : Collection A)
    (filter_dict : list (FieldEq A)) (st : Store) : list A :=
  List.filter (fun doc => forallb (field_matches doc) filter_dict)
    (coll_docs c st).

(** Modelled from the spec: [database.create_document] is not among the
    sources.  [create(collection, record)] stores the record in the
    collection, after the documents already there. *)
Definition create_document {A : Type} (c : Collection A) (doc : A)
    (st : Store) : Store :=
  coll_put c (coll_docs c st ++ [doc]) st.

(* ------------------------------------------------------------------ *)
(** ** Seed data ([POST /seed]) *)

Module Seed.

Definition location (lat lng : float) (address : string)
  : gmap string Py.value :=
  {[ "lat" := Py.VFloat lat; "lng" := Py.VFloat lng;
     "address" := Py.VStr address ]}.

Definition d1 : Driver.t :=
  {| Driver.name := "Budi Santoso"; Driver.employee_id := "DRV001";
     Driver.phone := Some "081234567890"; Driver.status := Driver.active |}.
Definition d2 : Driver.t :=
  {| Driver.name := "Siti Aminah"; Driver.employee_id := "DRV002";
     Driver.phone := Some "081298765432"; Driver.status := Driver.active |}.

Definition dev1 : Device.t :=
  {| Device.device_id := "DEV-1001"; Device.driver_id := None;
     Device.driver_name := Some "Budi Santoso"; Device.battery := 87;
     Device.is_online := true;
     Device.last_location := Some (location (-6.2) 106.82 "Jakarta") |}.
Definition dev2 : Device.t :=
  {| Device.device_id := "DEV-1002"; Device.driver_id := None;
     Device.driver_name := Some "Siti Aminah"; Device.battery := 22;
     Device.is_online := false;
     Device.last_location := Some (location (-6.21) 106.85 "Jakarta") |}.

Definition hr1 (today : datetime) : HealthRecord.t :=
  {| HealthRecord.driver_id := "DRV001";
     HealthRecord.driver_name := "Budi Santoso";
     HealthRecord.device_id := "DEV-1001";
     HealthRecord.timestamp := today;
     HealthRecord.heart_rate := 78; HealthRecord.bp_systolic := 145;
     HealthRecord.bp_diastolic := 95; HealthRecord.temperature := 36.8;
     HealthRecord.calories := 1200; HealthRecord.steps := 9500;
     HealthRecord.duration_minutes := 75;
     HealthRecord.kilometers := 6.8 |}.
Definition hr2 (today : datetime) : HealthRecord.t :=
  {| HealthRecord.driver_id := "DRV002";
     HealthRecord.driver_name := "Siti Aminah";
     HealthRecord.device_id := "DEV-1002";
     HealthRecord.timestamp := today;
     HealthRecord.heart_rate := 82; HealthRecord.bp_systolic := 118;
     HealthRecord.bp_diastolic := 78; HealthRecord.temperature := 36.6;
     HealthRecord.calories := 980; HealthRecord.steps := 7200;
     HealthRecord.duration_minutes := 60;
     HealthRecord.kilometers := 4.9 |}.

Definition segment (start end_ : datetime) (type : SleepSegment.Type_)
  : SleepSegment.t :=
  {| SleepSegment.start := start; SleepSegment.end_ := end_;
     SleepSegment.type := type |}.

Definition s1 (today : datetime) : SleepRecord.t :=
  {| SleepRecord.driver_id := "DRV001";
     SleepRecord.driver_name := "Budi Santoso";
     SleepRecord.device_id := "DEV-1001";
     SleepRecord.date := strftime_ymd today;
     SleepRecord.score := 58; SleepRecord.duration_minutes := 320;
     SleepRecord.segments :=
       [ segment (today - timedelta 7 0) (today - timedelta 6 45)
           SleepSegment.light;
         segment (today - timedelta 6 45) (today - timedelta 5 0)
           SleepSegment.deep;
         segment (today - timedelta 5 0) (today - timedelta 4 30)
           SleepSegment.rem;
         segment (today - timedelta 4 30) (today - timedelta 4 15)
           SleepSegment.awake ] |}.
Definition s2 (today : datetime) : SleepRecord.t :=
  {| SleepRecord.driver_id := "DRV002";
     SleepRecord.driver_name := "Siti Aminah";
     SleepRecord.device_id := "DEV-1002";
     SleepRecord.date := strftime_ymd today;
     SleepRecord.score := 82; SleepRecord.duration_minutes := 420;
     SleepRecord.segments :=
       [ segment (today - timedelta 8 0) (today - timedelta 6 0)
           SleepSegment.deep;
         segment (today - timedelta 6 0) (today - timedelta 5 0)
           SleepSegment.light;
         segment (today - timedelta 5 0) (today - timedelta 4 0)
           SleepSegment.rem ] |}.

Definition e1 (today : datetime) : Event.t :=
  {| Event.driver_id := "DRV001"; Event.driver_name := "Budi Santoso";
     Event.device_id := "DEV-1001"; Event.timestamp := today;
     Event.status_event := Event.LowBattery;
     Event.location := Some (location (-6.2) 106.82 "Jakarta") |}.
Definition e2 (today : datetime) : Event.t :=
  {| Event.driver_id := "DRV002"; Event.driver_name := "Siti Aminah";
     Event.device_id := "DEV-1002"; Event.timestamp := today;
     Event.status_event := Event.SOS;
     Event.location := Some (location (-6.21) 106.85 "Jakarta") |}.

Record Response : Type := { status : string }.

(** [seed()]: each collection is filled only when a query on it returns
    nothing.  [now] is the reading of [datetime.utcnow()]. *)
Definition seed (now : datetime) (st : Store) : Store * Response :=
  let st :=
    if Py.len (get_documents driver_c [] st) =? 0
    then create_document driver_c d2 (create_document driver_c d1 st)
    else st in
  let st :=
    if Py.len (get_documents device_c [] st) =? 0
    then create_document device_c dev2 (create_document device_c dev1 st)
    else st in
  let today := now in
  let st :=
    if Py.len (get_documents healthrecord_c [] st) =? 0
    then create_document healthrecord_c (hr2 today)
           (create_document healthrecord_c (hr1 today) st)
    else st in
  let st :=
    if Py.len (get_documents sleeprecord_c [] st) =? 0
    then create_document sleeprecord_c (s2 today)
           (create_document sleeprecord_c (s1 today) st)
    else st in
  let st :=
    if Py.len (get_documents event_c [] st) =? 0
    then create_document event_c (e2 today)
           (create_document event_c (e1 today) st)
    else st in
  (st, {| status := "ok" |}).

End Seed.

(* ------------------------------------------------------------------ *)
(** ** Dashboard endpoints *)

(** The wrapper [{"items": rows}] of the list endpoints. *)
Record Items (A : Type) : Type := { items : list A }.
Arguments items {A} _.

Module Summary.

(** [class DashboardSummary(BaseModel)] *)
Record DashboardSummary : Type := {
  high_bp_count : Z;
  low_sleep_score_count : Z;
  under_sleep_duration_count : Z;
  online_devices : Z;
  offline_devices : Z
}.

(** [dashboard_summary(...)], [GET /dashboard/summary] *)
Definition dashboard_summary (now : datetime)
    (bp_sys_threshold bp_dia_threshold : Z)
    (sleep_score_threshold sleep_duration_threshold : Z) (st : Store)
  : DashboardSummary :=
  let today := strftime_ymd now in
  let health := get_documents healthrecord_c [] st in
  let sleep :=
    get_documents sleeprecord_c [field_eq SleepRecord.date today] st in
  let devices := get_documents device_c [] st in
  let high_bp :=
    List.filter
      (fun h => (HealthRecord.bp_systolic h >? bp_sys_threshold)
                || (HealthRecord.bp_diastolic h >? bp_dia_threshold))
      health in
  let low_sleep_score :=
    List.filter (fun s => SleepRecord.score s <? sleep_score_threshold)
      sleep in
  let under_sleep :=
    List.filter
      (fun s => SleepRecord.duration_minutes s <? sleep_duration_threshold)
      sleep in
  let online := List.filter (fun d => Device.is_online d) devices in
  let offline :=
    List.filter (fun d => negb (Device.is_online d)) devices in
  {| high_bp_count := Py.len high_bp;
     low_sleep_score_count := Py.len low_sleep_score;
     under_sleep_duration_count := Py.len under_sleep;
     online_devices := Py.len online;
     offline_devices := Py.len offline |}.

End Summary.

Module Readiness.

(** The row dict built for each health record. *)
Record Row : Type := {
  datetime_ : datetime;
  driver_name : string;
  device_id : string;
  last_sleep_score : option Z;
  last_bp_systolic : Z;
  last_bp_diastolic : Z;
  status : string
}.

(** The loop [for s in sleep: sleep_by_driver[s["driver_id"]] = s]. *)
Definition sleep_by_driver (sleep : list SleepRecord.t)
  : gmap string SleepRecord.t :=
  foldl (fun m s => <[SleepRecord.driver_id s := s]> m) ∅ sleep.

(** The body of the loop over the health records.  [s] is the sleep
    document of the driver, or the empty dict ([None] here) that
    [sleep_by_driver.get(...) or {}] puts in its place. *)
Definition make_row (by_driver : gmap string SleepRecord.t)
    (h : HealthRecord.t) : Row :=
  let s := by_driver !! HealthRecord.driver_id h in
  let readiness_ok :=
    (HealthRecord.bp_systolic h <? 140)
    && (HealthRecord.bp_diastolic h <? 90)
    && (default 100 (SleepRecord.score <$> s) >=? 60) in
  {| datetime_ := HealthRecord.timestamp h;
     driver_name := HealthRecord.driver_name h;
     device_id := HealthRecord.device_id h;
     last_sleep_score := SleepRecord.score <$> s;
     last_bp_systolic := HealthRecord.bp_systolic h;
     last_bp_diastolic := HealthRecord.bp_diastolic h;
     status := if readiness_ok then "approved" else "not approved" |}.

(** [driver_readiness(q, status)], [GET /dashboard/readiness] *)
Definition driver_readiness {S : Py.Str} (q status_q : option string)
    (st : Store)
  : Items Row :=
  let health := get_documents healthrecord_c [] st in
  let sleep := get_documents sleeprecord_c [] st in
  let by_driver := sleep_by_driver sleep in
  let rows := map (make_row by_driver) health in
  let rows :=
    match q with
    | Some q =>
        if Py.truthy_str q
        then List.filter
               (fun r => Py.contains (Py.lower q)
                           (Py.lower (Py.or_str (driver_name r) "")))
               rows
        else rows
    | None => rows
    end in
  let rows :=
    match status_q with
    | Some status_q =>
        if Py.truthy_str status_q
        then List.filter
               (fun r => String.eqb (Py.lower (status r))
                           (Py.lower status_q))
               rows
        else rows
    | None => rows
    end in
  {| items := rows |}.

End Readiness.

Module Events.

Record Row : Type := {
  datetime_ : datetime;
  driver_name : string;
  device_id : string;
  status_event : string;
  address : Py.value
}.

Definition make_row (e : Event.t) : Row :=
  {| datetime_ := Event.timestamp e;
     driver_name := Event.driver_name e;
     device_id := Event.device_id e;
     status_event := Event.status_event_str (Event.status_event e);
     address := Py.get (Py.or_dict (Event.location e)) "address" |}.

(** [events_table(q, status_event)], [GET /dashboard/events] *)
Definition events_table {S : Py.Str} (q status_event_q : option string)
    (st : Store)
  : Items Row :=
  let events := get_documents event_c [] st in
  let rows := map make_row events in
  let rows :=
    match q with
    | Some q =>
        if Py.truthy_str q
        then List.filter
               (fun r => Py.contains (Py.lower q)
                           (Py.lower (Py.or_str (driver_name r) "")))
               rows
        else rows
    | None => rows
    end in
  let rows :=
    match status_event_q with
    | Some status_event_q =>
        if Py.truthy_str status_event_q
        then List.filter
               (fun r => String.eqb (Py.lower (status_event r))
                           (Py.lower status_event_q))
               rows
        else rows
    | None => rows
    end in
  {| items := rows |}.

End Events.

Module MapView.

Record Point : Type := {
  device_id : string;
  driver_name : option string;
  battery : Z;
  event_ : option string;
  address : Py.value;
  lat : Py.value;
  lng : Py.value
}.

(** [{h["device_id"]: h for h in health}] *)
Definition health_by_device (health : list HealthRecord.t)
  : gmap string HealthRecord.t :=
  foldl (fun m h => <[HealthRecord.device_id h := h]> m) ∅ health.

(** The loop [for e in events: latest_event_by_device[e["device_id"]] = e]. *)
Definition latest_event_by_device (events : list Event.t)
  : gmap string Event.t :=
  foldl (fun m e => <[Event.device_id e := e]> m) ∅ events.

Definition make_point (by_device : gmap string HealthRecord.t)
    (latest : gmap string Event.t) (d : Device.t) : Point :=
  let loc := Py.or_dict (Device.last_location d) in
  let h := by_device !! Device.device_id d in
  let ev := latest !! Device.device_id d in
  {| device_id := Device.device_id d;
     driver_name := Device.driver_name d;
     battery := Device.battery d;
     event_ := (fun e => Event.status_event_str (Event.status_event e))
                 <$> ev;
     address := Py.get loc "address";
     lat := Py.get loc "lat";
     lng := Py.get loc "lng" |}.

(** [map_points()], [GET /dashboard/map] *)
Definition map_points (st : Store) : Items Point :=
  let devices := get_documents device_c [] st in
  let health := get_documents healthrecord_c [] st in
  let events := get_documents event_c [] st in
  let by_device := health_by_device health in
  let latest := latest_event_by_device events in
  {| items := map (make_point by_device latest) devices |}.

End MapView.

(* ------------------------------------------------------------------ *)
(** ** Device endpoints *)

(** [HTTPException(status_code, detail)] *)
Record HTTPException : Type := {
  status_code : Z;
  detail : string
}.

Module Devices.

(** A device document with the sequence number [d["no"] = i] added. *)
Record Row : Type := {
  doc : Device.t;
  no : Z
}.

(** [devices_list(q)], [GET /devices] *)
Definition devices_list {S : Py.Str} (q : option string) (st : Store)
  : Items Row :=
  let devices := get_documents device_c [] st in
  let devices :=
    match q with
    | Some q =>
        if Py.truthy_str q
        then List.filter
               (fun d => Py.contains (Py.lower q)
                           (Py.lower (Device.device_id d +:+ " " +:+
                                      Py.or_empty (Device.driver_name d))))
               devices
        else devices
    | None => devices
    end in
  {| items := map (fun '(i, d) => {| doc := d; no := i |})
                (Py.enumerate devices 1) |}.

Record Detail : Type := {
  device_ : Device.t;
  health : option HealthRecord.t;
  sleep : list SleepRecord.t;
  events : list Event.t
}.

(** [device_detail(device_id)], [GET /devices/{device_id}]; the left
    injection is the exception raised. *)
Definition device_detail (device_id : string) (st : Store)
  : HTTPException + Detail :=
  let devices :=
    get_documents device_c [field_eq Device.device_id device_id] st in
  match devices with
  | [] => inl {| status_code := 404; detail := "Device not found" |}
  | device :: _ =>
      let health :=
        get_documents healthrecord_c
          [field_eq HealthRecord.device_id device_id] st in
      let health := match health with [] => None | h :: _ => Some h end in
      let sleep_today :=
        get_documents sleeprecord_c
          [field_eq SleepRecord.device_id device_id] st in
      let events :=
        get_documents event_c [field_eq Event.device_id device_id] st in
      inr {| device_ := device; health := health; sleep := sleep_today;
             events := events |}
  end.

(** [device_sleep(device_id, date)], [GET /devices/{device_id}/sleep] *)
Definition device_sleep (device_id : string) (date : option string)
    (st : Store) : Items SleepRecord.t :=
  let filt := [field_eq SleepRecord.device_id device_id] in
  let filt :=
    match date with
    | Some date =>
        if Py.truthy_str date
        then (filt ++ [field_eq SleepRecord.date date])%list
        else filt
    | None => filt
    end in
  {| items := get_documents sleeprecord_c filt st |}.

End Devices.

Module Ecg.

(** [math.sin] and the conversion [int(x)] of a float, which drops the
fractional part. *)
Class Math : Type := {
  sin : float -> float;
  int : float -> Z
}.

(** [float(i)] of a sample index. *)
Definition of_index (i : Z) : float := PrimFloat.of_uint63 (Uint63.of_Z i).

(** The expression under [int(...)] in the comprehension, in binary64
arithmetic. *)
Definition wave {M : Math} (i : Z) : float :=
  (50 + 30 * sin (of_index i / 6.0) + 10 * sin (of_index i / 1.3))%float.

Record Response : Type := {
  timestamp : string;
  samples : list Z
}.

(** [device_ecg(device_id)], [GET /devices/{device_id}/ecg] *)
Definition device_ecg {M : Math} (now : datetime) (device_id : string)
  : Response :=
  let points := map (fun i => int (wave i)) (Py.range 60) in
  {| timestamp := isoformat now; samples := points |}.

End Ecg.

(* ------------------------------------------------------------------ *)
(** ** Login and diagnostics *)

Module Auth.

(** [class LoginRequest(BaseModel)] *)
Record LoginRequest : Type := { email : string; password : string }.

(** [class LoginResponse(BaseModel)] *)
Record LoginResponse : Type := {
  token : string;
  name : string;
  role : string
}.

(** [s.split("@")[0]] *)
Fixpoint before_at (s : string) : string :=
  match s with
  | EmptyString => EmptyString
  | String c t => if Ascii.eqb c "@" then EmptyString
                  else String c (before_at t)
  end.

(** [login(req)], [POST /auth/login] *)
Definition login {S : Py.Str} (req : LoginRequest) : LoginResponse :=
  let name := Py.title (before_at (email req)) in
  {| token := "demo-token"; name := name; role := "admin" |}.

End Auth.

Module System.

(** What [test_database] asks of the [db] object of [database.py].
    [name] is the outcome of [db.name if hasattr(db, 'name') else ...]:
    the text of an exception raised on the way, or the attribute when
    there is one.  [list_collection_names] is the outcome of the call: the
    text of the exception or the names. *)
Record Db : Type := {
  name : string + option string;
  list_collection_names : string + list string
}.

Record Response : Type := {
  backend : string;
  database : string;
  database_url : string;
  database_name : string;
  connection_status : string;
  collections : list string
}.

(** [test_database()], [GET /test].  The two fields written from the
    environment at the end replace what the branches on [db] put there. *)
Definition test_database (db : option Db) (getenv : string -> option string)
  : Response :=
  let '(database, connection_status, collections) :=
    match db with
    | Some db =>
        match name db with
        | inl e =>
            (* the outer [except]: nothing after the failing line ran *)
            ("❌ Error: " +:+ Py.take_chars 50 e, "Not Connected", [])
        | inr _ =>
            match list_collection_names db with
            | inr names =>
                ("✅ Connected & Working", "Connected", take 10 names)
            | inl e =>
                ("⚠️  Connected but Error: " +:+ Py.take_chars 50 e,
                 "Connected", [])
            end
        end
    | None => ("⚠️  Available but not initialized", "Not Connected", [])
    end in
  {| backend := "✅ Running";
     database := database;
     database_url :=
       if Py.truthy (getenv "DATABASE_URL") then "✅ Set" else "❌ Not Set";
     database_name :=
       if Py.truthy (getenv "DATABASE_NAME") then "✅ Set"
       else "❌ Not Set";
     connection_status := connection_status;
     collections := collections |}.

End System.

(* ------------------------------------------------------------------ *)
(** ** The routes of the service *)

Module App.

(** What a request handler reads besides the store. *)
Record Env : Type := {
  utcnow : datetime;
  db : option System.Db;
  getenv : string -> option string
}.

(** A request, with its path and query parameters; a query parameter
    that the URL leaves out is [None]. *)
Inductive Request : Type :=
| GET_root
| POST_auth_login (req : Auth.LoginRequest)
| POST_seed
| GET_dashboard_summary
    (bp_sys_threshold bp_dia_threshold : option Z)
    (sleep_score_threshold sleep_duration_threshold : option Z)
| GET_dashboard_readiness (q status : option string)
| GET_dashboard_events (q status_event : option string)
| GET_dashboard_map
| GET_devices (q : option string)
| GET_device (device_id : string)
| GET_device_sleep (device_id : string) (date : option string)
| GET_device_ecg (device_id : string)
| GET_test.

Inductive Response : Type :=
| Root (message : string)
| Login (r : Auth.LoginResponse)
| Seeded (r : Seed.Response)
| SummaryOf (r : Summary.DashboardSummary)
| ReadinessRows (r : Items Readiness.Row)
| EventRows (r : Items Events.Row)
| MapPoints (r : Items MapView.Point)
| DeviceRows (r : Items Devices.Row)
| DeviceDetail (r : Devices.Detail)
| SleepRows (r : Items SleepRecord.t)
| EcgOf (r : Ecg.Response)
| Diagnostic (r : System.Response).

(** [root()], [GET /] *)
Definition root : Response := Root "Smart Wearable Platform API running".

(** The route table: the handler of each request, with the defaults of
    the [Query(...)] parameters filled in.  The result is the store
    after the request and either the exception raised or the response. *)
Definition handle {S : Py.Str} {M : Ecg.Math} (env : Env) (req : Request)
    (st : Store)
  : Store * (HTTPException + Response) :=
  match req with
  | GET_root => (st, inr root)
  | POST_auth_login r => (st, inr (Login (Auth.login r)))
  | POST_seed =>
      let '(st', r) := Seed.seed (utcnow env) st in (st', inr (Seeded r))
  | GET_dashboard_summary sys dia score duration =>
      (st, inr (SummaryOf
                  (Summary.dashboard_summary (utcnow env)
                     (default 140 sys) (default 90 dia)
                     (default 60 score) (default 360 duration) st)))
  | GET_dashboard_readiness q status =>
      (st, inr (ReadinessRows (Readiness.driver_readiness q status st)))
  | GET_dashboard_events q status_event =>
      (st, inr (EventRows (Events.events_table q status_event st)))
  | GET_dashboard_map => (st, inr (MapPoints (MapView.map_points st)))
  | GET_devices q => (st, inr (DeviceRows (Devices.devices_list q st)))
  | GET_device device_id =>
      (st, match Devices.device_detail device_id st with
           | inl e => inl e
           | inr r => inr (DeviceDetail r)
           end)
  | GET_device_sleep device_id date =>
      (st, inr (SleepRows (Devices.device_sleep device_id date st)))
  | GET_device_ecg device_id =>
      (st, inr (EcgOf (Ecg.device_ecg (utcnow env) device_id)))
  | GET_test =>
      (st, inr (Diagnostic (System.test_database (db env) (getenv env))))
  end.

End App.

(* ------------------------------------------------------------------ *)
(** ** Vocabulary of the specification *)

Module Spec.

(** [sub] is a substring of [s]. *)
Definition substring (sub s : string) : Prop :=
  exists pre post : string, s = pre +:+ sub +:+ post.

(** [sub] is a substring of [s] when case is ignored, that is, after
[str.lower] on both. *)
Definition substring_ci {S : Py.Str} (sub s : string) : Prop :=
  substring (Py.lower sub) (Py.lower s).

(** [a] and [b] are equal when case is ignored, that is, after [str.lower]
on both. *)
Definition eq_ci {S : Py.Str} (a b : string) : Prop :=
  Py.lower a = Py.lower b.

(** [out] consists of exactly the elements of [l] that satisfy [P], in
    the order they have in [l]. *)
Inductive Filtered {A : Type} (P : A -> Prop) : list A -> list A -> Prop :=
| Filtered_nil : Filtered P [] []
| Filtered_keep (x : A) (l out : list A) :
    P x -> Filtered P l out -> Filtered P (x :: l) (x :: out)
| Filtered_drop (x : A) (l out : list A) :
    ~ P x -> Filtered P l out -> Filtered P (x :: l) out.

(** The number of elements of [l] that satisfy [P]. *)
Definition count {A : Type} (P : A -> Prop) `{forall x, Decision (P x)}
    (l : list A) : Z :=
  Z.of_nat (length (filter P l)).

(** The last sleep record of a driver, in the order of the collection. *)
Definition last_sleep_of (sleep : list SleepRecord.t) (driver_id : string)
  : option SleepRecord.t :=
  last (filter (fun s => SleepRecord.driver_id s = driver_id) sleep).

(** The last event of a device, in the order of the collection. *)
Definition last_event_of (events : list Event.t) (device_id : string)
  : option Event.t :=
  last (filter (fun e => Event.device_id e = device_id) events).

(** A field of a location that may be null: null when the location or
    the field is missing. *)
Definition location_field (loc : option (gmap string Py.value))
    (k : string) : Py.value :=
  match loc with
  | Some l => match l !! k with Some v => v | None => Py.VNone end
  | None => Py.VNone
  end.






(** The row filter of the event table: [q], when given, is a substring of
the driver name and [status_event], when given and not empty, equals
the event's status, both ignoring case. *)
Definition events_keep {S : Py.Str} (q status_event : option string)
    (r : Events.Row)
  : Prop :=
  (forall q', q = Some q' -> substring_ci q' (Events.driver_name r)) /\
  (forall s, status_event = Some s -> s <> "" ->
             eq_ci (Events.status_event r) s).

(** The sleep records that [device_sleep] selects: those of the device,
and of the date when a date that is not empty is given. *)
Definition sleep_keep (device_id : string) (date : option string)
    (s : SleepRecord.t) : Prop :=
  SleepRecord.device_id s = device_id /\
  (forall d, date = Some d -> d <> "" -> SleepRecord.date s = d).

(** A health record counts as high blood pressure under the thresholds. *)
Definition high_bp (bp_sys bp_dia : Z) (h : HealthRecord.t) : Prop :=
  HealthRecord.bp_systolic h > bp_sys \/ HealthRecord.bp_diastolic h > bp_dia.

End Spec.

(** The store after [seed()] on an empty store at time [now]. *)
Definition seeded (now : datetime) : Store :=
  fst (Seed.seed now empty_store).


(** The test that the [q] step of the readiness and event tables applies
    to a driver name. *)
Definition q_test {S : Py.Str} (q : option string) (name : string) : bool :=
  match q with
  | Some q =>
      if Py.truthy_str q
      then Py.contains (Py.lower q) (Py.lower (Py.or_str name ""))
      else true
  | None => true
  end.

(** The test that the [status] step applies to a label. *)
Definition label_test {S : Py.Str} (status : option string) (label : string)
  : bool :=
  match status with
  | Some s =>
      if Py.truthy_str s then String.eqb (Py.lower label) (Py.lower s)
      else true
  | None => true
  end.

(** Equality of event kinds is decidable. *)
#[global] Instance StatusEvent_eq_dec : EqDecision Event.StatusEvent.
Proof. solve_decision. Defined.

(** Small stores on which the statements below are exercised. *)
Module Sample.

(** One health record and no sleep record. *)
Definition health_only : Store :=
  {| driver := []; device := []; healthrecord := [Seed.hr2 0];
     sleeprecord := []; event := [] |}.

(** A sleep record that is under both sleep thresholds. *)
Definition short_night : SleepRecord.t :=
  {| SleepRecord.driver_id := "DRV003";
     SleepRecord.driver_name := "Agus Wijaya";
     SleepRecord.device_id := "DEV-1003";
     SleepRecord.date := "1970-01-01";
     SleepRecord.score := 40; SleepRecord.duration_minutes := 200;
     SleepRecord.segments := [] |}.

Definition one_short_night : Store :=
  {| driver := []; device := []; healthrecord := [];
     sleeprecord := [short_night]; event := [] |}.


(** A device without a driver name and without a location. *)
Definition bare_device : Device.t :=
  {| Device.device_id := "DEV-2001"; Device.driver_id := None;
     Device.driver_name := None; Device.battery := 100;
     Device.is_online := true; Device.last_location := None |}.

Definition one_device : Store :=
  {| driver := []; device := [bare_device]; healthrecord := [];
     sleeprecord := []; event := [] |}.


(** The seeded store with its health and sleep records taken away. *)
Definition seeded_without_health : Store :=
  {| driver := []; device := device (seeded 0); healthrecord := [];
     sleeprecord := []; event := event (seeded 0) |}.

End Sample.

(* ------------------------------------------------------------------ *)
(** * Properties *)

(** ** The store *)

Section StoreFacts.
Context {A : Type}.

Lemma forallb_nil_filter (l : list A) :
  List.filter (fun doc => forallb (field_matches doc) []) l = l.
Proof.
  induction l as [|x l IH]; simpl in *; [reflexivity | now f_equal].
Qed.

(** A query without a filter returns the whole collection. *)
Lemma get_documents_all (c : Collection A) (st : Store) :
  get_documents c [] st = coll_docs c st.
Proof. unfold get_documents. apply forallb_nil_filter. Qed.

(** A list comprehension with a boolean test selects what the matching
    proposition selects. *)
Lemma comprehension_filter (f : A -> bool) (P : A -> Prop)
    `{forall x, Decision (P x)} (l : list A) :
  (forall x, f x = true <-> P x) ->
  List.filter f l = filter P l.
Proof.
  intros Hf. induction l as [|x l IH]; [reflexivity|].
  simpl. rewrite filter_cons. destruct (f x) eqn:E.
  - rewrite decide_True by (apply Hf; exact E). now rewrite IH.
  - rewrite decide_False; [exact IH|].
    intros HP. apply Hf in HP. congruence.
Qed.

(** A query on one field returns the documents with that value. *)
Lemma get_documents_field {B : Type} `{EqDecision B} (c : Collection A)
    (field : A -> B) (v : B) (st : Store) :
  get_documents c [field_eq field v] st
  = filter (fun doc => field doc = v) (coll_docs c st).
Proof.
  unfold get_documents. apply comprehension_filter.
  intros x. simpl. rewrite andb_true_r. apply bool_decide_eq_true.
Qed.

Lemma Filtered_comprehension (f : A -> bool) (P : A -> Prop) (l : list A) :
  (forall x, f x = true <-> P x) ->
  Spec.Filtered P l (List.filter f l).
Proof.
  intros Hf. induction l as [|x l IH]; simpl; [constructor|].
  destruct (f x) eqn:E.
  - apply Spec.Filtered_keep; [apply Hf; exact E | exact IH].
  - apply Spec.Filtered_drop; [|exact IH].
    intros HP. apply Hf in HP. congruence.
Qed.

(** A dict filled by [for x in l: m[key(x)] = x] holds, under each key,
    the last element of [l] with that key. *)
Lemma overwrite_lookup (key : A -> string) (l : list A)
    (m0 : gmap string A) (k : string) :
  foldl (fun m x => <[key x := x]> m) m0 l !! k
  = match last (filter (fun x => key x = k) l) with
    | Some x => Some x
    | None => m0 !! k
    end.
Proof.
  induction l as [|x l IH] using rev_ind; [reflexivity|].
  rewrite foldl_app, filter_app. simpl. rewrite filter_cons, filter_nil.
  destruct (decide (key x = k)) as [->|Hne].
  - rewrite lookup_insert_eq, last_snoc. reflexivity.
  - rewrite lookup_insert_ne by exact Hne. rewrite app_nil_r. exact IH.
Qed.

End StoreFacts.

(** ** Strings *)

Lemma prefix_spec (a s : string) :
  String.prefix a s = true <-> exists post, s = a +:+ post.
Proof.
  revert s. induction a as [|c a IH]; intros s; simpl.
  - split; [intros _; exists s; reflexivity | destruct s; reflexivity].
  - destruct s as [|c' s].
    + split; [discriminate | intros [post Hp]; discriminate].
    + simpl. destruct (ascii_dec c c') as [->|Hne].
      * rewrite IH. split; intros [post Hp]; exists post.
        -- now rewrite Hp.
        -- now inversion Hp.
      * split; [discriminate | intros [post Hp]; inversion Hp; congruence].
Qed.

Lemma contains_unfold (sub s : string) :
  Py.contains sub s
  = String.prefix sub s
    || match s with
       | EmptyString => false
       | String _ t => Py.contains sub t
       end.
Proof. destruct s; reflexivity. Qed.

(** [sub in s] holds exactly when [sub] is a substring of [s]. *)
Lemma contains_spec (sub s : string) :
  Py.contains sub s = true <-> Spec.substring sub s.
Proof.
  split.
  - induction s as [|c s IH]; rewrite contains_unfold; intros H;
      apply orb_true_iff in H as [H|H].
    + apply prefix_spec in H as [post ->]. exists "", post. reflexivity.
    + discriminate.
    + apply prefix_spec in H as [post ->]. exists "", post. reflexivity.
    + destruct (IH H) as (pre & post & ->).
      exists (String c pre), post. reflexivity.
  - intros (pre & post & ->). induction pre as [|c pre IH].
    + rewrite contains_unfold. apply orb_true_iff. left.
      apply prefix_spec. exists post. reflexivity.
    + rewrite contains_unfold. apply orb_true_iff. right. exact IH.
Qed.

Lemma contains_empty (s : string) : Py.contains "" s = true.
Proof. apply contains_spec. exists "", s. reflexivity. Qed.

Lemma or_str_empty (s : string) : Py.or_str s "" = s.
Proof. destruct s; reflexivity. Qed.

Lemma len_length {A : Type} (l : list A) : Py.len l = Z.of_nat (length l).
Proof. reflexivity. Qed.

Lemma append_assoc (a b c : string) : (a +:+ b) +:+ c = a +:+ (b +:+ c).
Proof.
  induction a as [|x a IH]; [reflexivity|].
  change (String x ((a +:+ b) +:+ c) = String x (a +:+ (b +:+ c))).
  now f_equal.
Qed.

Lemma append_empty_r (a : string) : a +:+ "" = a.
Proof.
  induction a as [|x a IH]; [reflexivity|].
  change (String x (a +:+ "") = String x a). now f_equal.
Qed.

Lemma or_empty_some (s : string) : Py.or_empty (Some s) = s.
Proof. destruct s; reflexivity. Qed.


(** [ascii_str] is a string library that satisfies the two assumptions on
    ASCII text. *)
Lemma ascii_str_lower_on_ascii : @Py.lower_on_ascii Py.ascii_str.
Proof. intros s _. reflexivity. Qed.


Lemma is_ascii_app (a b : string) :
  Py.is_ascii (a +:+ b) = Py.is_ascii a && Py.is_ascii b.
Proof.
  induction a as [|c a IH]; [reflexivity|].
  change (Py.is_ascii (String c a +:+ b))
    with ((nat_of_ascii c <? 128)%nat && Py.is_ascii (a +:+ b)).
  rewrite IH. cbn [Py.is_ascii]. now rewrite andb_assoc.
Qed.

Lemma ascii_lower_app (a b : string) :
  Py.ascii_lower (a +:+ b) = Py.ascii_lower a +:+ Py.ascii_lower b.
Proof.
  induction a as [|c a IH]; [reflexivity|].
  change (String (Py.lower_ascii c) (Py.ascii_lower (a +:+ b))
          = String (Py.lower_ascii c)
              (Py.ascii_lower a +:+ Py.ascii_lower b)).
  now f_equal.
Qed.

(** Under the assumption on ASCII text, the collections carry the names
    that [to_collection] makes of the names in the source. *)
Lemma to_collection_names {S : Py.Str} (HL : Py.lower_on_ascii) :
  to_collection "driver" = coll_name driver_c
  /\ to_collection "device" = coll_name device_c
  /\ to_collection "healthrecord" = coll_name healthrecord_c
  /\ to_collection "sleeprecord" = coll_name sleeprecord_c
  /\ to_collection "event" = coll_name event_c
  /\ to_collection "HealthRecord" = "healthrecord".
Proof.
  unfold to_collection. rewrite !HL by reflexivity. repeat split.
Qed.


(** ** Readiness table *)

(** Case analysis on the integer comparisons of a goal. *)
Ltac zcases :=
  repeat match goal with
    | |- context [Z.ltb ?a ?b] => destruct (Z.ltb_spec a b)
    | |- context [Z.leb ?a ?b] => destruct (Z.leb_spec a b)
    | |- context [Z.gtb ?a ?b] => rewrite (Z.gtb_ltb a b)
    | |- context [Z.geb ?a ?b] => rewrite (Z.geb_leb a b)
    end.

Section ReadinessTable.
Context {S : Py.Str}.

Lemma sleep_by_driver_last (sleep : list SleepRecord.t) (k : string) :
  Readiness.sleep_by_driver sleep !! k = Spec.last_sleep_of sleep k.
Proof.
  unfold Readiness.sleep_by_driver, Spec.last_sleep_of.
  rewrite overwrite_lookup, lookup_empty.
  now destruct (last _).
Qed.

Lemma readiness_unfiltered (st : Store) :
  items (Readiness.driver_readiness None None st)
  = map (Readiness.make_row (Readiness.sleep_by_driver (sleeprecord st)))
      (healthrecord st).
Proof.
  unfold Readiness.driver_readiness. now rewrite !get_documents_all.
Qed.

Lemma make_row_status (sleep : list SleepRecord.t) (h : HealthRecord.t) :
  Readiness.status (Readiness.make_row (Readiness.sleep_by_driver sleep) h)
  = "approved"
  <-> HealthRecord.bp_systolic h < 140
      /\ HealthRecord.bp_diastolic h < 90
      /\ match Spec.last_sleep_of sleep (HealthRecord.driver_id h) with
         | Some s => SleepRecord.score s >= 60
         | None => True
         end.
Proof.
  unfold Readiness.make_row. cbn [Readiness.status].
  rewrite sleep_by_driver_last.
  destruct (Spec.last_sleep_of sleep (HealthRecord.driver_id h)) as [s|];
    cbn; unfold id; zcases; cbn;
    split; intros Hx;
    first [discriminate Hx | reflexivity | lia | exfalso; lia].
Qed.

(** C1.  With no query parameter, the readiness table has one row per
    health record, in the same order, and the row of a health record is
    labelled "approved" exactly when its systolic pressure is below 140,
    its diastolic pressure is below 90 and the score of the driver's sleep
    record is at least 60; the sleep record is the last one of that
    [driver_id] in the whole sleep collection (a driver without one passes
    the sleep test), and every other row is labelled "not approved".  The
    three thresholds are literals: the endpoint takes no threshold. *)
Theorem readiness_status_by_fixed_thresholds (st : Store) :
  let rows := items (Readiness.driver_readiness None None st) in
  length rows = length (healthrecord st) /\
  Forall2
    (fun h r =>
       (Readiness.status r = "approved" <->
          HealthRecord.bp_systolic h < 140
          /\ HealthRecord.bp_diastolic h < 90
          /\ match Spec.last_sleep_of (sleeprecord st)
                     (HealthRecord.driver_id h) with
             | Some s => SleepRecord.score s >= 60
             | None => True
             end)
       /\ (Readiness.status r = "approved"
           \/ Readiness.status r = "not approved"))
    (healthrecord st) rows.
Proof.
  cbv zeta. rewrite readiness_unfiltered. split.
  - apply length_map.
  - apply Forall2_fmap_r, Forall_Forall2_diag, Forall_forall.
    intros h _. split.
    + apply make_row_status.
    + unfold Readiness.make_row. cbn [Readiness.status].
      destruct (_ && _); [left | right]; reflexivity.
Qed.

(** C9.  A health record whose driver has no sleep record at all is given
    the default score 100: its row has a null [last_sleep_score] and is
    labelled "approved" exactly when the systolic pressure is below 140
    and the diastolic pressure is below 90. *)
Theorem readiness_without_sleep_record (st : Store) (i : nat)
    (h : HealthRecord.t) :
  healthrecord st !! i = Some h ->
  (forall s, s ∈ sleeprecord st ->
             SleepRecord.driver_id s <> HealthRecord.driver_id h) ->
  exists r,
    items (Readiness.driver_readiness None None st) !! i = Some r
    /\ Readiness.last_sleep_score r = None
    /\ (Readiness.status r = "approved" <->
          HealthRecord.bp_systolic h < 140
          /\ HealthRecord.bp_diastolic h < 90).
Proof.
  intros Hi Hnone.
  assert (Hlast : Spec.last_sleep_of (sleeprecord st)
                    (HealthRecord.driver_id h) = None).
  { unfold Spec.last_sleep_of.
    destruct (filter _ (sleeprecord st)) as [|s l] eqn:E; [reflexivity|].
    assert (Hs : s ∈ filter
                   (fun s => SleepRecord.driver_id s
                             = HealthRecord.driver_id h) (sleeprecord st))
      by (rewrite E; left).
    apply list_elem_of_filter in Hs as [Hk Hin].
    now apply Hnone in Hin. }
  exists (Readiness.make_row (Readiness.sleep_by_driver (sleeprecord st)) h).
  rewrite readiness_unfiltered, list_lookup_fmap, Hi. split; [reflexivity|].
  split.
  - unfold Readiness.make_row. cbn [Readiness.last_sleep_score].
    now rewrite sleep_by_driver_last, Hlast.
  - rewrite make_row_status, Hlast. tauto.
Qed.


(** The readiness table of the seeded store. *)

Example readiness_of_seeded_store (now : datetime) :
  map (fun r => (Readiness.driver_name r, Readiness.last_sleep_score r,
                 Readiness.status r))
    (items (Readiness.driver_readiness None None (seeded now)))
  = [ ("Budi Santoso", Some 58, "not approved");
      ("Siti Aminah", Some 82, "approved") ].
Proof. reflexivity. Qed.

End ReadinessTable.

(** ** Dashboard summary *)

(** C2.  For every store, clock reading and thresholds, the summary counts
    the health records whose systolic pressure exceeds its threshold or
    whose diastolic pressure exceeds its threshold; among the sleep
    records dated today (the clock reading printed as YYYY-MM-DD) it
    counts, each on its own, those with a score under the score threshold
    and those with a duration under the duration threshold; and it counts
    the devices that are online and those that are not. *)
Theorem summary_counts (now : datetime) (bp_sys bp_dia score duration : Z)
    (st : Store) :
  let r := Summary.dashboard_summary now bp_sys bp_dia score duration st in
  let today :=
    filter (fun s => SleepRecord.date s = strftime_ymd now)
      (sleeprecord st) in
  Summary.high_bp_count r
  = Spec.count (fun h => HealthRecord.bp_systolic h > bp_sys
                         \/ HealthRecord.bp_diastolic h > bp_dia)
      (healthrecord st)
  /\ Summary.low_sleep_score_count r
     = Spec.count (fun s => SleepRecord.score s < score) today
  /\ Summary.under_sleep_duration_count r
     = Spec.count (fun s => SleepRecord.duration_minutes s < duration) today
  /\ Summary.online_devices r
     = Spec.count (fun d => Device.is_online d = true) (device st)
  /\ Summary.offline_devices r
     = Spec.count (fun d => Device.is_online d = false) (device st).
Proof.
  cbv zeta. unfold Summary.dashboard_summary, Spec.count.
  cbn [Summary.high_bp_count Summary.low_sleep_score_count
       Summary.under_sleep_duration_count Summary.online_devices
       Summary.offline_devices].
  rewrite !get_documents_all, get_documents_field, !len_length.
  cbn [coll_docs healthrecord_c sleeprecord_c device_c].
  repeat split; do 2 f_equal; apply comprehension_filter; intros x.
  - rewrite orb_true_iff, !Z.gtb_ltb, !Z.ltb_lt. lia.
  - rewrite Z.ltb_lt. reflexivity.
  - rewrite Z.ltb_lt. reflexivity.
  - reflexivity.
  - apply negb_true_iff.
Qed.

(** Online and offline devices together are all the devices. *)
Lemma summary_devices_partition (now : datetime)
    (bp_sys bp_dia score duration : Z) (st : Store) :
  let r := Summary.dashboard_summary now bp_sys bp_dia score duration st in
  Summary.online_devices r + Summary.offline_devices r = Py.len (device st).
Proof.
  cbv zeta. unfold Summary.dashboard_summary.
  cbn [Summary.online_devices Summary.offline_devices].
  rewrite get_documents_all. cbn [coll_docs device_c].
  unfold Py.len. induction (device st) as [|d l IH]; [reflexivity|].
  simpl. destruct (Device.is_online d); simpl length; lia.
Qed.

(** One sleep record can be counted under both sleep thresholds. *)
Example summary_counts_one_record_twice :
  let r := Summary.dashboard_summary 0 140 90 60 360 Sample.one_short_night in
  Summary.low_sleep_score_count r = 1
  /\ Summary.under_sleep_duration_count r = 1.
Proof. vm_compute. split; reflexivity. Qed.

(** The summary of the seeded store on the day of the seeding. *)
Example summary_of_seeded_store :
  Summary.dashboard_summary 0 140 90 60 360 (seeded 0)
  = {| Summary.high_bp_count := 1; Summary.low_sleep_score_count := 1;
       Summary.under_sleep_duration_count := 1;
       Summary.online_devices := 1; Summary.offline_devices := 1 |}.
Proof. vm_compute. reflexivity. Qed.


(** ** Seeding *)

(** What [seed] leaves in each collection: the collection as it was when
    it had documents, the two demo records otherwise. *)
Lemma seed_collections (now : datetime) (st : Store) :
  let st' := fst (Seed.seed now st) in
  driver st'
  = (if decide (driver st = []) then [Seed.d1; Seed.d2] else driver st)
  /\ device st'
     = (if decide (device st = []) then [Seed.dev1; Seed.dev2]
        else device st)
  /\ healthrecord st'
     = (if decide (healthrecord st = []) then [Seed.hr1 now; Seed.hr2 now]
        else healthrecord st)
  /\ sleeprecord st'
     = (if decide (sleeprecord st = []) then [Seed.s1 now; Seed.s2 now]
        else sleeprecord st)
  /\ event st'
     = (if decide (event st = []) then [Seed.e1 now; Seed.e2 now]
        else event st).
Proof.
  destruct st as [dr dv hr sl ev].
  unfold Seed.seed. rewrite !get_documents_all.
  destruct dr, dv, hr, sl, ev; repeat split; reflexivity.
Qed.

Lemma store_eq (a b : Store) :
  driver a = driver b -> device a = device b ->
  healthrecord a = healthrecord b -> sleeprecord a = sleeprecord b ->
  event a = event b -> a = b.
Proof. destruct a, b; simpl; intros; subst; reflexivity. Qed.

(** Seeding a store that was seeded before changes nothing, whatever the
    store was at first and whenever the two calls are made. *)
Lemma seed_twice (t1 t2 : datetime) (st : Store) :
  fst (Seed.seed t2 (fst (Seed.seed t1 st))) = fst (Seed.seed t1 st).
Proof.
  destruct (seed_collections t2 (fst (Seed.seed t1 st)))
    as (H1 & H2 & H3 & H4 & H5).
  destruct (seed_collections t1 st) as (K1 & K2 & K3 & K4 & K5).
  apply store_eq.
  - rewrite H1, K1. clear. destruct (decide (driver st = [])) as [E|E].
    + destruct (decide (_ = [])) as [e|e]; [discriminate e | reflexivity].
    + cbn iota. rewrite decide_False by exact E. reflexivity.
  - rewrite H2, K2. clear. destruct (decide (device st = [])) as [E|E].
    + destruct (decide (_ = [])) as [e|e]; [discriminate e | reflexivity].
    + cbn iota. rewrite decide_False by exact E. reflexivity.
  - rewrite H3, K3. clear. destruct (decide (healthrecord st = [])) as [E|E].
    + destruct (decide (_ = [])) as [e|e]; [discriminate e | reflexivity].
    + cbn iota. rewrite decide_False by exact E. reflexivity.
  - rewrite H4, K4. clear. destruct (decide (sleeprecord st = [])) as [E|E].
    + destruct (decide (_ = [])) as [e|e]; [discriminate e | reflexivity].
    + cbn iota. rewrite decide_False by exact E. reflexivity.
  - rewrite H5, K5. clear. destruct (decide (event st = [])) as [E|E].
    + destruct (decide (_ = [])) as [e|e]; [discriminate e | reflexivity].
    + cbn iota. rewrite decide_False by exact E. reflexivity.
Qed.

(** C3.  Seeding is idempotent.  From the empty store, one call leaves
    exactly two records in each of the five collections, and a second
    call, at any later time, leaves the store as the first call left it;
    this is because a collection that already has documents is passed
    over, from whatever store the call starts. *)
Theorem seed_idempotent (t1 t2 : datetime) :
  let once := fst (Seed.seed t1 empty_store) in
  let twice := fst (Seed.seed t2 once) in
  (Py.len (driver once) = 2 /\ Py.len (device once) = 2
   /\ Py.len (healthrecord once) = 2 /\ Py.len (sleeprecord once) = 2
   /\ Py.len (event once) = 2)
  /\ twice = once
  /\ (Py.len (driver twice) = 2 /\ Py.len (device twice) = 2
      /\ Py.len (healthrecord twice) = 2 /\ Py.len (sleeprecord twice) = 2
      /\ Py.len (event twice) = 2)
  /\ (forall st : Store,
        let st' := fst (Seed.seed t1 st) in
        (if decide (driver st = []) then True else driver st' = driver st)
        /\ (if decide (device st = []) then True
            else device st' = device st)
        /\ (if decide (healthrecord st = []) then True
            else healthrecord st' = healthrecord st)
        /\ (if decide (sleeprecord st = []) then True
            else sleeprecord st' = sleeprecord st)
        /\ (if decide (event st = []) then True
            else event st' = event st)).
Proof.
  cbv zeta.
  assert (Honce : Py.len (driver (fst (Seed.seed t1 empty_store))) = 2
                  /\ Py.len (device (fst (Seed.seed t1 empty_store))) = 2
                  /\ Py.len (healthrecord (fst (Seed.seed t1 empty_store))) = 2
                  /\ Py.len (sleeprecord (fst (Seed.seed t1 empty_store))) = 2
                  /\ Py.len (event (fst (Seed.seed t1 empty_store))) = 2).
  { destruct (seed_collections t1 empty_store) as (K1 & K2 & K3 & K4 & K5).
    rewrite K1, K2, K3, K4, K5. repeat split; reflexivity. }
  split; [exact Honce|]. split; [apply seed_twice|].
  split; [rewrite seed_twice; exact Honce|].
  intros st.
  destruct (seed_collections t1 st) as (K1 & K2 & K3 & K4 & K5).
  rewrite K1, K2, K3, K4, K5.
  repeat split; repeat case_decide; first [exact I | reflexivity | contradiction].
Qed.


(** ** Map points *)

Lemma latest_event_last (events : list Event.t) (k : string) :
  MapView.latest_event_by_device events !! k = Spec.last_event_of events k.
Proof.
  unfold MapView.latest_event_by_device, Spec.last_event_of.
  rewrite overwrite_lookup, lookup_empty.
  now destruct (last _).
Qed.

Lemma get_or_dict (loc : option (gmap string Py.value)) (k : string) :
  Py.get (Py.or_dict loc) k = Spec.location_field loc k.
Proof.
  unfold Py.get, Py.or_dict, Spec.location_field.
  destruct loc as [l|]; simpl; [reflexivity|].
  now rewrite lookup_empty.
Qed.

(** C4.  The map has one point per device, in the order of the devices.
    The [event] of a point is the [status_event] of the last event of the
    event collection with the device's [device_id], or null when there is
    none, and [address], [lat] and [lng] are those fields of the device's
    [last_location] (null where the location or the field is missing). *)
Theorem map_points_per_device (st : Store) :
  let points := items (MapView.map_points st) in
  length points = length (device st) /\
  Forall2
    (fun d p =>
       MapView.device_id p = Device.device_id d
       /\ MapView.event_ p
          = match Spec.last_event_of (event st) (Device.device_id d) with
            | Some e => Some (Event.status_event_str (Event.status_event e))
            | None => None
            end
       /\ MapView.address p
          = Spec.location_field (Device.last_location d) "address"
       /\ MapView.lat p = Spec.location_field (Device.last_location d) "lat"
       /\ MapView.lng p = Spec.location_field (Device.last_location d) "lng")
    (device st) points.
Proof.
  cbv zeta. unfold MapView.map_points. rewrite !get_documents_all.
  cbn [items coll_docs device_c healthrecord_c event_c]. split.
  - apply length_map.
  - apply Forall2_fmap_r, Forall_Forall2_diag, Forall_forall.
    intros d _. unfold compose, MapView.make_point.
    cbn [MapView.device_id MapView.event_ MapView.address MapView.lat
         MapView.lng].
    rewrite latest_event_last, !get_or_dict.
    repeat split.
Qed.

(** The points of the seeded store. *)
Example map_points_of_seeded_store (now : datetime) :
  map (fun p => (MapView.device_id p, MapView.event_ p, MapView.address p,
                 MapView.lat p, MapView.lng p))
    (items (MapView.map_points (seeded now)))
  = [ ("DEV-1001", Some "Low Battery", Py.VStr "Jakarta",
       Py.VFloat (-6.2), Py.VFloat 106.82);
      ("DEV-1002", Some "SOS", Py.VStr "Jakarta",
       Py.VFloat (-6.21), Py.VFloat 106.85) ].
Proof. vm_compute. reflexivity. Qed.


(** ** Device detail and the errors of the service *)

Lemma filter_nil_iff {A : Type} (P : A -> Prop) `{forall x, Decision (P x)}
    (l : list A) :
  filter P l = [] <-> ~ exists x, x ∈ l /\ P x.
Proof.
  split.
  - intros E (x & Hin & HP).
    assert (Hx : x ∈ filter P l) by (apply list_elem_of_filter; auto).
    rewrite E in Hx. inversion Hx.
  - intros Hno. destruct (filter P l) as [|x t] eqn:E; [reflexivity|].
    exfalso. apply Hno. exists x.
    assert (Hx : x ∈ filter P l) by (rewrite E; left).
    apply list_elem_of_filter in Hx. tauto.
Qed.

Lemma head_filter_holds {A : Type} (P : A -> Prop) `{forall x, Decision (P x)}
    (l : list A) (x : A) :
  head (filter P l) = Some x -> P x.
Proof.
  intros Hh. apply head_Some_elem_of in Hh.
  apply list_elem_of_filter in Hh. tauto.
Qed.

(** [device_detail] in terms of the selections it makes in the store. *)
Lemma device_detail_unfold (device_id : string) (st : Store) :
  Devices.device_detail device_id st
  = match head (filter (fun d => Device.device_id d = device_id)
                  (device st)) with
    | None => inl {| status_code := 404; detail := "Device not found" |}
    | Some d =>
        inr {| Devices.device_ := d;
               Devices.health :=
                 head (filter (fun h => HealthRecord.device_id h = device_id)
                         (healthrecord st));
               Devices.sleep :=
                 filter (fun s => SleepRecord.device_id s = device_id)
                   (sleeprecord st);
               Devices.events :=
                 filter (fun e => Event.device_id e = device_id)
                   (event st) |}
    end.
Proof.
  unfold Devices.device_detail. rewrite !get_documents_field.
  cbn [coll_docs device_c healthrecord_c sleeprecord_c event_c].
  destruct (filter _ (device st)) as [|d l]; [reflexivity|].
  cbn [head]. now destruct (filter _ (healthrecord st)).
Qed.

(** A request fails only when it asks for the detail of a device that the
    store does not have, and then with status 404. *)
Lemma only_error_is_unknown_device {S : Py.Str} {M : Ecg.Math}
    (env : App.Env) (req : App.Request) (st : Store) (e : HTTPException) :
  snd (App.handle env req st) = inl e ->
  exists device_id,
    req = App.GET_device device_id
    /\ e = {| status_code := 404; detail := "Device not found" |}
    /\ ~ exists d, d ∈ device st /\ Device.device_id d = device_id.
Proof.
  destruct req; cbn [App.handle snd]; try discriminate.
  intros He. exists device_id.
  rewrite device_detail_unfold in He.
  destruct (head _) as [d|] eqn:Eh; [discriminate|].
  split; [reflexivity|]. split; [congruence|].
  apply head_None in Eh. now apply filter_nil_iff in Eh.
Qed.

(** C5.  [device_detail] raises NotFound (status 404) if and only if no
    device of the store has the requested [device_id], and it raises
    nothing else.  Otherwise it returns the first device with that id,
    whose [device_id] is therefore the requested one, with the first
    health record of that device or null, all its sleep records and all
    its events.  No other request of the service ends in an error. *)
Theorem device_detail_not_found_iff (device_id : string) (st : Store) :
  (Devices.device_detail device_id st
   = inl {| status_code := 404; detail := "Device not found" |}
   <-> ~ exists d, d ∈ device st /\ Device.device_id d = device_id)
  /\ (forall e, Devices.device_detail device_id st = inl e ->
                e = {| status_code := 404; detail := "Device not found" |})
  /\ (forall r, Devices.device_detail device_id st = inr r ->
        Device.device_id (Devices.device_ r) = device_id
        /\ head (filter (fun d => Device.device_id d = device_id)
                   (device st)) = Some (Devices.device_ r)
        /\ Devices.health r
           = head (filter (fun h => HealthRecord.device_id h = device_id)
                     (healthrecord st))
        /\ Devices.sleep r
           = filter (fun s => SleepRecord.device_id s = device_id)
               (sleeprecord st)
        /\ Devices.events r
           = filter (fun e => Event.device_id e = device_id) (event st))
  /\ (forall (S : Py.Str) (M : Ecg.Math) env req st' e,
        snd (App.handle env req st') = inl e ->
        exists id,
          req = App.GET_device id
          /\ e = {| status_code := 404; detail := "Device not found" |}
          /\ ~ exists d, d ∈ device st' /\ Device.device_id d = id).
Proof.
  rewrite device_detail_unfold.
  destruct (head (filter (fun d => Device.device_id d = device_id)
                    (device st))) as [d|] eqn:Eh.
  - split; [|split; [|split]].
    + split; [discriminate|]. intros Hno. exfalso. apply Hno. exists d.
      pose proof (head_filter_holds _ _ _ Eh) as Hd.
      apply head_Some_elem_of, list_elem_of_filter in Eh. tauto.
    + discriminate.
    + intros r Hr. inversion Hr; subst r. cbn.
      split; [exact (head_filter_holds _ _ _ Eh)|]. repeat split.
    + intros S M. apply only_error_is_unknown_device.
  - split; [|split; [|split]].
    + split; [|reflexivity]. intros _.
      apply head_None in Eh. now apply filter_nil_iff in Eh.
    + intros e He. congruence.
    + discriminate.
    + intros S M. apply only_error_is_unknown_device.
Qed.

Lemma device_detail_not_found_iff_witness :
  (exists r, Devices.device_detail "DEV-1001" (seeded 0) = inr r
             /\ Device.device_id (Devices.device_ r) = "DEV-1001")
  /\ Devices.device_detail "DEV-9999" (seeded 0)
     = inl {| status_code := 404; detail := "Device not found" |}.
Proof.
  split.
  - destruct (Devices.device_detail "DEV-1001" (seeded 0)) as [e|r] eqn:E.
    + vm_compute in E. discriminate E.
    + exists r. split; [reflexivity|].
      exact (proj1 (proj1 (proj2 (proj2
               (device_detail_not_found_iff "DEV-1001" (seeded 0)))) r E)).
  - destruct (Devices.device_detail "DEV-9999" (seeded 0)) as [e|r] eqn:E.
    + f_equal.
      exact (proj1 (proj2
               (device_detail_not_found_iff "DEV-9999" (seeded 0))) e E).
    + vm_compute in E. discriminate E.
Defined.


(** ** Filters of the tables *)

Section FilterFacts.
Context {A : Type}.

Lemma comprehension_true (l : list A) : List.filter (fun _ => true) l = l.
Proof. induction l as [|x l IH]; simpl; [reflexivity | now f_equal]. Qed.


(** Two comprehensions in a row filter by the conjunction of their
    tests. *)
Lemma Filtered_twice (f g : A -> bool) (P : A -> Prop) (l : list A) :
  (forall x, f x && g x = true <-> P x) ->
  Spec.Filtered P l (List.filter g (List.filter f l)).
Proof.
  intros Hfg. induction l as [|x l IH]; simpl; [constructor|].
  destruct (f x) eqn:Ef; simpl.
  - destruct (g x) eqn:Eg.
    + apply Spec.Filtered_keep; [apply Hfg; now rewrite Ef, Eg | exact IH].
    + apply Spec.Filtered_drop; [|exact IH].
      intros HP. apply Hfg in HP. rewrite Ef, Eg in HP. discriminate.
  - apply Spec.Filtered_drop; [|exact IH].
    intros HP. apply Hfg in HP. rewrite Ef in HP. discriminate.
Qed.


Lemma enumerate_snd (l : list A) (start : Z) :
  map snd (Py.enumerate l start) = l.
Proof.
  revert start. induction l as [|x l IH]; intros start; [reflexivity|].
  cbn [Py.enumerate map snd]. now rewrite IH.
Qed.


Lemma comprehension_map {B : Type} (f : B -> bool) (g : A -> B)
    (l : list A) :
  List.filter f (map g l) = map g (List.filter (fun x => f (g x)) l).
Proof.
  induction l as [|x l IH]; [reflexivity|].
  simpl. destruct (f (g x)); simpl; now rewrite IH.
Qed.

Lemma elem_of_comprehension (f : A -> bool) (l : list A) (x : A) :
  x ∈ List.filter f l <-> x ∈ l /\ f x = true.
Proof. rewrite !list_elem_of_In. apply filter_In. Qed.

End FilterFacts.

Section TableFilters.
Context {S : Py.Str}.

Lemma q_test_spec (HL : Py.lower_on_ascii) (q : option string)
    (name : string) :
  q_test q name = true
  <-> forall q', q = Some q' -> Spec.substring_ci q' name.
Proof.
  unfold q_test, Spec.substring_ci. destruct q as [q|].
  - rewrite or_str_empty. destruct q as [|c q]; cbn [Py.truthy_str].
    + split; [|reflexivity]. intros _ q' [= <-].
      rewrite (HL "") by reflexivity. apply contains_spec, contains_empty.
    + rewrite contains_spec. split.
      * intros H q' [= <-]. exact H.
      * intros H. now apply H.
  - split; [intros _ q'; discriminate | reflexivity].
Qed.

Lemma label_test_spec (status : option string) (label : string) :
  label_test status label = true
  <-> forall s, status = Some s -> s <> "" -> Spec.eq_ci label s.
Proof.
  unfold label_test, Spec.eq_ci. destruct status as [s|].
  - destruct s as [|c s]; cbn [Py.truthy_str].
    + split; [|reflexivity]. intros _ s' [= <-] Hne. now contradict Hne.
    + rewrite String.eqb_eq. split.
      * intros H s' [= <-] _. exact H.
      * intros H. now apply H.
  - split; [intros _ s'; discriminate | reflexivity].
Qed.



Lemma label_test_ascii (HL : Py.lower_on_ascii) (s label : string) :
  Py.is_ascii s = true -> Py.is_ascii label = true ->
  label_test (Some s) label = @label_test Py.ascii_str (Some s) label.
Proof.
  intros Hs Hl. unfold label_test.
  now rewrite (HL s Hs), (HL label Hl).
Qed.

Lemma readiness_as_comprehensions (q status : option string) (st : Store) :
  items (Readiness.driver_readiness q status st)
  = List.filter (fun r => label_test status (Readiness.status r))
      (List.filter (fun r => q_test q (Readiness.driver_name r))
         (items (Readiness.driver_readiness None None st))).
Proof.
  unfold Readiness.driver_readiness, q_test, label_test. cbn [items].
  destruct q as [q|], status as [s|];
    try destruct (Py.truthy_str q); try destruct (Py.truthy_str s);
    now rewrite ?comprehension_true.
Qed.



(** ** Device listing *)

Lemma devices_list_docs (q : option string) (st : Store) :
  map Devices.doc (items (Devices.devices_list q st))
  = List.filter
      (fun d => q_test q (Device.device_id d +:+ " " +:+
                          Py.or_empty (Device.driver_name d)))
      (device st).
Proof.
  unfold Devices.devices_list. cbn [items].
  rewrite get_documents_all. cbn [coll_docs device_c].
  rewrite map_map.
  match goal with
  | |- map ?f (Py.enumerate ?l 1) = _ =>
      transitivity (map snd (Py.enumerate l 1));
      [apply map_ext; intros [i d]; reflexivity | rewrite enumerate_snd]
  end.
  unfold q_test. destruct q as [q|]; [|now rewrite comprehension_true].
  destruct (Py.truthy_str q); [|now rewrite comprehension_true].
  apply filter_ext. intros d. now rewrite or_str_empty.
Qed.




(** ** Empty query parameters *)

(** C10.  In [readiness], [events_table] and [list_devices], a filter
    parameter given as the empty string has the effect of a parameter
    that is left out: the step that would filter is not run. *)
Theorem empty_parameter_is_no_parameter (st : Store) :
  (forall status,
     Readiness.driver_readiness (Some "") status st
     = Readiness.driver_readiness None status st)
  /\ (forall q,
        Readiness.driver_readiness q (Some "") st
        = Readiness.driver_readiness q None st)
  /\ (forall status_event,
        Events.events_table (Some "") status_event st
        = Events.events_table None status_event st)
  /\ (forall q,
        Events.events_table q (Some "") st = Events.events_table q None st)
  /\ Devices.devices_list (Some "") st = Devices.devices_list None st
  /\ items (Readiness.driver_readiness (Some "") (Some "") st)
     = map (Readiness.make_row (Readiness.sleep_by_driver (sleeprecord st)))
         (healthrecord st)
  /\ items (Events.events_table (Some "") (Some "") st)
     = map Events.make_row (event st)
  /\ map Devices.doc (items (Devices.devices_list (Some "") st)) = device st.
Proof.
  repeat split.
  - apply readiness_unfiltered.
  - unfold Events.events_table. now rewrite get_documents_all.
  - rewrite devices_list_docs. apply comprehension_true.
Qed.

End TableFilters.


(** ** The model on concrete inputs *)

Example strftime_epoch : strftime_ymd 0 = "1970-01-01".
Proof. reflexivity. Qed.

Example strftime_leap_day :
  strftime_ymd (951782400 * 1000000) = "2000-02-29"
  /\ strftime_ymd (951782400 * 1000000 - 1) = "2000-02-28".
Proof. split; reflexivity. Qed.

Example isoformat_microseconds :
  isoformat (1700000000 * 1000000 + 123) = "2023-11-14T22:13:20.000123"
  /\ isoformat (1700000000 * 1000000) = "2023-11-14T22:13:20".
Proof. split; reflexivity. Qed.


(* ------------------------------------------------------------------ *)
(** * Further properties of the endpoints *)

(** ** Event table *)

Section EventTable.
Context {S : Py.Str}.

Lemma events_unfiltered (st : Store) :
  items (Events.events_table None None st) = map Events.make_row (event st).
Proof. unfold Events.events_table. now rewrite get_documents_all. Qed.

Lemma events_as_comprehensions (q status_event : option string) (st : Store) :
  items (Events.events_table q status_event st)
  = List.filter (fun r => label_test status_event (Events.status_event r))
      (List.filter (fun r => q_test q (Events.driver_name r))
         (map Events.make_row (event st))).
Proof.
  unfold Events.events_table, q_test, label_test. cbn [items].
  rewrite get_documents_all. cbn [coll_docs event_c].
  destruct q as [q|], status_event as [s|];
    try destruct (Py.truthy_str q); try destruct (Py.truthy_str s);
    now rewrite ?comprehension_true.
Qed.

(** The event table holds one row per event, in the order of the events,
    with the stored name of the event kind and the address of the nested
    location (null without a location); [events_table(q, status_event)]
    keeps, in that order, exactly the rows whose driver name contains [q]
    ignoring case and whose status equals a [status_event] that is not
    empty, ignoring case; ignoring case is comparing what [str.lower]
    gives.  [HL] is what [str.lower] does on ASCII text. *)
Theorem events_table_rows_and_filters (HL : Py.lower_on_ascii)
    (st : Store) (q status_event : option string) :
  Forall2
    (fun e r =>
       Events.datetime_ r = Event.timestamp e
       /\ Events.driver_name r = Event.driver_name e
       /\ Events.device_id r = Event.device_id e
       /\ Events.status_event r
          = Event.status_event_str (Event.status_event e)
       /\ Events.address r
          = Spec.location_field (Event.location e) "address")
    (event st) (items (Events.events_table None None st))
  /\ Spec.Filtered (Spec.events_keep q status_event)
       (items (Events.events_table None None st))
       (items (Events.events_table q status_event st)).
Proof.
  split.
  - rewrite events_unfiltered.
    apply Forall2_fmap_r, Forall_Forall2_diag, Forall_forall.
    intros e _. unfold compose, Events.make_row.
    cbn [Events.datetime_ Events.driver_name Events.device_id
         Events.status_event Events.address].
    rewrite get_or_dict. repeat split.
  - rewrite events_unfiltered, (events_as_comprehensions q status_event st).
    apply Filtered_twice. intros r. unfold Spec.events_keep.
    rewrite andb_true_iff, (q_test_spec HL), label_test_spec. reflexivity.
Qed.


Lemma eq_ci_kind (HL : Py.lower_on_ascii) (k k' : Event.StatusEvent) :
  Py.lower (Event.status_event_str k') = Py.lower (Event.status_event_str k)
  <-> k' = k.
Proof.
  split; [|now intros ->].
  rewrite (HL (Event.status_event_str k')) by now destruct k'.
  rewrite (HL (Event.status_event_str k)) by now destruct k.
  destruct k, k'; intros H;
    first [reflexivity | vm_compute in H; discriminate H].
Qed.

Lemma kind_name_not_empty (HL : Py.lower_on_ascii) (k : Event.StatusEvent)
    (s : string) :
  Spec.eq_ci s (Event.status_event_str k) -> s <> "".
Proof.
  unfold Spec.eq_ci. intros H ->.
  rewrite (HL ""), (HL (Event.status_event_str k)) in H
    by first [reflexivity | now destruct k].
  destruct k; discriminate H.
Qed.

(** Asking the event table for one of the four event kinds by its name,
    in any letter case, returns the rows of exactly the events of that
    kind.  [HL] is what [str.lower] does on ASCII text. *)
Theorem events_table_by_kind (HL : Py.lower_on_ascii) (st : Store)
    (k : Event.StatusEvent) (s : string) :
  Spec.eq_ci s (Event.status_event_str k) ->
  items (Events.events_table None (Some s) st)
  = map Events.make_row
      (filter (fun e => Event.status_event e = k) (event st)).
Proof.
  intros Hs.
  pose proof (kind_name_not_empty HL k s Hs) as Hne.
  rewrite events_as_comprehensions. cbn [q_test].
  rewrite comprehension_true, comprehension_map. f_equal.
  apply comprehension_filter. intros e.
  rewrite label_test_spec. cbn [Events.make_row Events.status_event].
  unfold Spec.eq_ci in *. split.
  - intros H. apply (eq_ci_kind HL). rewrite <- Hs. now apply H.
  - intros <- s' [= <-] _. now rewrite Hs.
Qed.

End EventTable.

(** ** Sleep history of a device *)

Lemma device_sleep_unfold (device_id : string) (date : option string)
    (st : Store) :
  items (Devices.device_sleep device_id date st)
  = List.filter
      (fun s => bool_decide (SleepRecord.device_id s = device_id)
                && match date with
                   | Some d =>
                       if Py.truthy_str d
                       then bool_decide (SleepRecord.date s = d)
                       else true
                   | None => true
                   end)
      (sleeprecord st).
Proof.
  unfold Devices.device_sleep, get_documents. cbn [items coll_docs sleeprecord_c].
  apply filter_ext. intros s.
  destruct date as [d|]; [destruct (Py.truthy_str d)|]; simpl;
    now rewrite ?andb_true_r.
Qed.

(** [device_sleep(device_id, date)] returns, in the order of the
    collection, exactly the sleep records of the device, narrowed to the
    given date when one is given; an empty date is no date, and an id that
    no device has is not an error. *)
Theorem device_sleep_selection (st : Store) (device_id : string)
    (date : option string) :
  Spec.Filtered (Spec.sleep_keep device_id date) (sleeprecord st)
    (items (Devices.device_sleep device_id date st))
  /\ Devices.device_sleep device_id (Some "") st
     = Devices.device_sleep device_id None st
  /\ items (Devices.device_sleep device_id None st)
     = filter (fun s => SleepRecord.device_id s = device_id)
         (sleeprecord st).
Proof.
  split; [|split].
  - rewrite device_sleep_unfold. apply Filtered_comprehension.
    intros s. unfold Spec.sleep_keep.
    rewrite andb_true_iff, bool_decide_eq_true.
    destruct date as [d|].
    + destruct d as [|c d]; cbn [Py.truthy_str].
      * split; [|tauto]. intros [H _]. split; [exact H|].
        intros d' [= <-] Hne. now contradict Hne.
      * rewrite bool_decide_eq_true. split.
        -- intros [H1 H2]. split; [exact H1|]. now intros d' [= <-] _.
        -- intros [H1 H2]. split; [exact H1|]. now apply H2.
    + split; [|tauto]. intros [H _]. split; [exact H|]. discriminate.
  - reflexivity.
  - unfold Devices.device_sleep. cbn [items]. apply get_documents_field.
Qed.

(** For a device that exists, the detail view lists the same sleep
    records as the sleep history without a date, and the first of the
    device's health records. *)
Theorem device_detail_agrees_with_device_sleep (st : Store)
    (device_id : string) (r : Devices.Detail) :
  Devices.device_detail device_id st = inr r ->
  Devices.sleep r = items (Devices.device_sleep device_id None st)
  /\ Devices.device_ r ∈ device st
  /\ (forall h, Devices.health r = Some h ->
                h ∈ healthrecord st /\ HealthRecord.device_id h = device_id)
  /\ (Devices.health r = None <->
        ~ exists h, h ∈ healthrecord st
                    /\ HealthRecord.device_id h = device_id).
Proof.
  rewrite device_detail_unfold.
  destruct (head (filter _ (device st))) as [d|] eqn:Ed; [|discriminate].
  intros [= <-]. cbn [Devices.sleep Devices.device_ Devices.health].
  split; [|split; [|split]].
  - unfold Devices.device_sleep. cbn [items].
    now rewrite get_documents_field.
  - apply head_Some_elem_of, list_elem_of_filter in Ed. tauto.
  - intros h Hh. apply head_Some_elem_of, list_elem_of_filter in Hh. tauto.
  - rewrite head_None. apply filter_nil_iff.
Qed.

Lemma device_detail_agrees_with_device_sleep_witness :
  exists r,
    Devices.device_detail "DEV-1002" (seeded 0) = inr r
    /\ Devices.sleep r
       = items (Devices.device_sleep "DEV-1002" None (seeded 0)).
Proof.
  destruct (Devices.device_detail "DEV-1002" (seeded 0)) as [e|r] eqn:E.
  - vm_compute in E. discriminate E.
  - exists r. split; [reflexivity|].
    exact (proj1 (device_detail_agrees_with_device_sleep
                    (seeded 0) "DEV-1002" r E)).
Defined.


(** ** Seeding any store *)

(** [seed] answers "ok", never removes or changes a document that was in
    the store (each collection before the call is a prefix of the
    collection after it), and leaves none of the five collections
    empty. *)
Theorem seed_keeps_documents (now : datetime) (st : Store) :
  let st' := fst (Seed.seed now st) in
  Seed.status (snd (Seed.seed now st)) = "ok"
  /\ (driver st `prefix_of` driver st'
      /\ device st `prefix_of` device st'
      /\ healthrecord st `prefix_of` healthrecord st'
      /\ sleeprecord st `prefix_of` sleeprecord st'
      /\ event st `prefix_of` event st')
  /\ (driver st' <> [] /\ device st' <> [] /\ healthrecord st' <> []
      /\ sleeprecord st' <> [] /\ event st' <> []).
Proof.
  cbv zeta. split; [reflexivity|].
  destruct (seed_collections now st) as (K1 & K2 & K3 & K4 & K5).
  rewrite K1, K2, K3, K4, K5. clear K1 K2 K3 K4 K5.
  split; repeat split; case_decide as E;
    first [ rewrite E; apply prefix_nil | reflexivity
          | discriminate | exact E ].
Qed.

(** From any store and at any two times, a second [seed] changes nothing
    that the first one left. *)
Theorem seed_idempotent_from_any_store (t1 t2 : datetime) (st : Store) :
  fst (Seed.seed t2 (fst (Seed.seed t1 st))) = fst (Seed.seed t1 st)
  /\ snd (Seed.seed t2 (fst (Seed.seed t1 st))) = snd (Seed.seed t1 st).
Proof. split; [apply seed_twice | reflexivity]. Qed.

(** A collection that holds a document when [seed] is called gets no demo
    record, whatever the other collections hold: a store with one device
    of its own ends with that device alone, next to two seeded records in
    each other collection. *)
Theorem seed_fills_collections_separately (now : datetime) (st : Store)
    (d : Device.t) :
  device st = [d] -> driver st = [] -> healthrecord st = [] ->
  sleeprecord st = [] -> event st = [] ->
  fst (Seed.seed now st)
  = {| driver := [Seed.d1; Seed.d2]; device := [d];
       healthrecord := [Seed.hr1 now; Seed.hr2 now];
       sleeprecord := [Seed.s1 now; Seed.s2 now];
       event := [Seed.e1 now; Seed.e2 now] |}.
Proof.
  intros H1 H2 H3 H4 H5.
  destruct (seed_collections now st) as (K1 & K2 & K3 & K4 & K5).
  rewrite H1, H2, H3, H4, H5 in *.
  apply store_eq; cbn [driver device healthrecord sleeprecord event];
    assumption.
Qed.

Lemma seed_fills_collections_separately_witness :
  device (fst (Seed.seed 0 Sample.one_device)) = [Sample.bare_device]
  /\ healthrecord (fst (Seed.seed 0 Sample.one_device))
     = [Seed.hr1 0; Seed.hr2 0].
Proof.
  rewrite (seed_fills_collections_separately 0 Sample.one_device
             Sample.bare_device eq_refl eq_refl eq_refl eq_refl eq_refl).
  split; reflexivity.
Defined.


(** ** More on the dashboard summary *)

Lemma comprehension_le {A : Type} (f g : A -> bool) (l : list A) :
  (forall x, f x = true -> g x = true) ->
  (length (List.filter f l) <= length (List.filter g l))%nat.
Proof.
  intros Hfg. induction l as [|x l IH]; [reflexivity|].
  simpl. destruct (f x) eqn:Ef.
  - rewrite (Hfg x Ef). simpl. lia.
  - destruct (g x); simpl; lia.
Qed.

Lemma comprehension_length {A : Type} (f : A -> bool) (l : list A) :
  (length (List.filter f l) <= length l)%nat.
Proof.
  induction l as [|x l IH]; [reflexivity|].
  simpl. destruct (f x); simpl; lia.
Qed.


(** Every count of the summary lies between 0 and the size of the
    collection it is taken from, and the online and the offline devices
    together are all the devices. *)
Theorem summary_counts_bounded (now : datetime)
    (bp_sys bp_dia score duration : Z) (st : Store) :
  let r := Summary.dashboard_summary now bp_sys bp_dia score duration st in
  0 <= Summary.high_bp_count r <= Py.len (healthrecord st)
  /\ 0 <= Summary.low_sleep_score_count r <= Py.len (sleeprecord st)
  /\ 0 <= Summary.under_sleep_duration_count r <= Py.len (sleeprecord st)
  /\ 0 <= Summary.online_devices r <= Py.len (device st)
  /\ 0 <= Summary.offline_devices r <= Py.len (device st)
  /\ Summary.online_devices r + Summary.offline_devices r
     = Py.len (device st).
Proof.
  cbv zeta. split; [|split; [|split; [|split; [|split]]]];
    [| | | | |apply summary_devices_partition];
    unfold Summary.dashboard_summary, get_documents, Py.len;
    cbn [Summary.high_bp_count Summary.low_sleep_score_count
         Summary.under_sleep_duration_count Summary.online_devices
         Summary.offline_devices coll_docs healthrecord_c
         sleeprecord_c device_c];
    (split; [lia|]); apply inj_le;
    repeat (etransitivity; [apply comprehension_length|]); reflexivity.
Qed.

(** Raising a blood pressure threshold never raises the high blood
    pressure count, and raising a sleep threshold never lowers the count
    taken under it; the device counts do not depend on the thresholds. *)
Theorem summary_monotone_in_thresholds (now : datetime)
    (bp_sys bp_dia score duration : Z)
    (bp_sys' bp_dia' score' duration' : Z) (st : Store) :
  bp_sys <= bp_sys' -> bp_dia <= bp_dia' ->
  score <= score' -> duration <= duration' ->
  let r := Summary.dashboard_summary now bp_sys bp_dia score duration st in
  let r' :=
    Summary.dashboard_summary now bp_sys' bp_dia' score' duration' st in
  Summary.high_bp_count r' <= Summary.high_bp_count r
  /\ Summary.low_sleep_score_count r <= Summary.low_sleep_score_count r'
  /\ Summary.under_sleep_duration_count r
     <= Summary.under_sleep_duration_count r'
  /\ Summary.online_devices r' = Summary.online_devices r
  /\ Summary.offline_devices r' = Summary.offline_devices r.
Proof.
  intros H1 H2 H3 H4. cbv zeta. unfold Summary.dashboard_summary, Py.len.
  cbn [Summary.high_bp_count Summary.low_sleep_score_count
       Summary.under_sleep_duration_count Summary.online_devices
       Summary.offline_devices].
  split; [|split; [|split; [|split; reflexivity]]];
    apply inj_le, comprehension_le; intros x;
    rewrite ?orb_true_iff, ?Z.gtb_ltb, ?Z.ltb_lt; lia.
Qed.

Lemma summary_monotone_in_thresholds_witness :
  Summary.high_bp_count
    (Summary.dashboard_summary 0 150 100 70 400 (seeded 0))
  <= Summary.high_bp_count
       (Summary.dashboard_summary 0 140 90 60 360 (seeded 0)).
Proof.
  apply (summary_monotone_in_thresholds 0 140 90 60 360 150 100 70 400
           (seeded 0)); lia.
Defined.

(** On the UTC day of the seeding of an empty store, the summary with the
    default thresholds counts one high blood pressure, one low sleep
    score, one short sleep, one device online and one offline. *)
Theorem summary_on_the_day_of_seeding (now now' : datetime) :
  strftime_ymd now' = strftime_ymd now ->
  Summary.dashboard_summary now' 140 90 60 360 (seeded now)
  = {| Summary.high_bp_count := 1; Summary.low_sleep_score_count := 1;
       Summary.under_sleep_duration_count := 1;
       Summary.online_devices := 1; Summary.offline_devices := 1 |}.
Proof.
  intros Hday. unfold Summary.dashboard_summary, get_documents.
  rewrite Hday.
  change (coll_docs sleeprecord_c (seeded now))
    with [Seed.s1 now; Seed.s2 now].
  cbn [List.filter forallb field_matches SleepRecord.date Seed.s1 Seed.s2].
  rewrite !bool_decide_eq_true_2 by reflexivity.
  reflexivity.
Qed.

Lemma summary_on_the_day_of_seeding_witness :
  Summary.low_sleep_score_count
    (Summary.dashboard_summary 1 140 90 60 360 (seeded 0)) = 1.
Proof.
  now rewrite (summary_on_the_day_of_seeding 0 1 eq_refl).
Defined.


(** ** More on the readiness table *)

Section ReadinessStatuses.
Context {S : Py.Str}.

Lemma comprehension_split {A : Type} (f g : A -> bool) (l : list A) :
  (forall x, g x = negb (f x)) ->
  (length (List.filter f l) + length (List.filter g l))%nat = length l.
Proof.
  intros Hg. induction l as [|x l IH]; [reflexivity|].
  simpl. rewrite (Hg x). destruct (f x); simpl; lia.
Qed.

Lemma make_row_label (m : gmap string SleepRecord.t) (h : HealthRecord.t) :
  Readiness.status (Readiness.make_row m h) = "approved"
  \/ Readiness.status (Readiness.make_row m h) = "not approved".
Proof.
  unfold Readiness.make_row. cbn [Readiness.status].
  destruct (_ && _); [left | right]; reflexivity.
Qed.


(** The label test on the two labels of the table. *)
Lemma label_test_labels (HL : Py.lower_on_ascii) :
  label_test (Some "approved") "approved" = true
  /\ label_test (Some "approved") "not approved" = false
  /\ label_test (Some "not approved") "approved" = false
  /\ label_test (Some "not approved") "not approved" = true.
Proof.
  rewrite !(label_test_ascii HL) by reflexivity. repeat split.
Qed.

(** A health record that the readiness table approves is never counted as
    high blood pressure by the summary with its default thresholds, so the
    approved rows and the high blood pressure count together do not exceed
    the number of health records.  [HL] is what [str.lower] does on ASCII
    text. *)
Theorem approved_rows_are_not_high_bp (HL : Py.lower_on_ascii)
    (now : datetime) (score duration : Z) (st : Store) :
  Py.len (items (Readiness.driver_readiness None (Some "approved") st))
  + Summary.high_bp_count
      (Summary.dashboard_summary now 140 90 score duration st)
  <= Py.len (healthrecord st).
Proof.
  destruct (label_test_labels HL) as (Haa & Han & _ & _).
  rewrite (readiness_as_comprehensions None (Some "approved") st).
  rewrite readiness_unfiltered. cbn [q_test].
  rewrite comprehension_true, comprehension_map.
  unfold Summary.dashboard_summary. cbn [Summary.high_bp_count].
  rewrite get_documents_all. cbn [coll_docs healthrecord_c].
  unfold Py.len. rewrite length_map.
  induction (healthrecord st) as [|h l IH]; [reflexivity|].
  cbn [List.filter].
  destruct (make_row_label (Readiness.sleep_by_driver (sleeprecord st)) h)
    as [Hs | Hs]; rewrite Hs.
  - rewrite Haa.
    apply make_row_status in Hs as (Hsys & Hdia & _).
    rewrite !Z.gtb_ltb.
    destruct (Z.ltb_spec 140 (HealthRecord.bp_systolic h)); [lia|].
    destruct (Z.ltb_spec 90 (HealthRecord.bp_diastolic h)); [lia|].
    cbn [orb length]. lia.
  - rewrite Han. destruct (_ || _); cbn [length]; lia.
Qed.

(** The rows with status "approved" and the rows with status
    "not approved" are together all the rows of the table, whatever name
    filter is applied to both.  [HL] is what [str.lower] does on ASCII
    text. *)
Theorem readiness_statuses_partition (HL : Py.lower_on_ascii) (st : Store)
    (q : option string) :
  Py.len (items (Readiness.driver_readiness q (Some "approved") st))
  + Py.len (items (Readiness.driver_readiness q (Some "not approved") st))
  = Py.len (items (Readiness.driver_readiness q None st)).
Proof.
  destruct (label_test_labels HL) as (Haa & Han & Hna & Hnn).
  rewrite (readiness_as_comprehensions q (Some "approved") st),
    (readiness_as_comprehensions q (Some "not approved") st),
    (readiness_as_comprehensions q None st), readiness_unfiltered.
  change (fun r : Readiness.Row => label_test None (Readiness.status r))
    with (fun _ : Readiness.Row => true).
  rewrite comprehension_true.
  unfold Py.len. rewrite <- Nat2Z.inj_add. f_equal.
  induction (healthrecord st) as [|h l IH]; [reflexivity|].
  cbn [map List.filter]. destruct (q_test q _); [|exact IH].
  cbn [List.filter].
  destruct (make_row_label (Readiness.sleep_by_driver (sleeprecord st)) h)
    as [-> | ->].
  - rewrite Haa, Hna. cbn [length]. lia.
  - rewrite Han, Hnn. cbn [length]. lia.
Qed.

(** A status that is neither "approved" nor "not approved" in any letter
    case, and is not empty, selects no row: the answer is an empty table,
    not an error.  [HL] is what [str.lower] does on ASCII text. *)
Theorem readiness_unknown_status_is_empty (HL : Py.lower_on_ascii)
    (st : Store) (q : option string) (status : string) :
  status <> "" ->
  Py.lower status <> "approved" ->
  Py.lower status <> "not approved" ->
  items (Readiness.driver_readiness q (Some status) st) = [].
Proof.
  intros Hne Ha Hn.
  rewrite (readiness_as_comprehensions q (Some status) st),
    readiness_unfiltered.
  induction (healthrecord st) as [|h l IH]; [reflexivity|].
  cbn [map List.filter]. destruct (q_test q _); [|exact IH].
  cbn [List.filter].
  destruct (label_test (Some status) _) eqn:E; [|exact IH].
  exfalso.
  pose proof (proj1 (label_test_spec _ _) E status eq_refl Hne) as Hci.
  unfold Spec.eq_ci in Hci.
  destruct (make_row_label (Readiness.sleep_by_driver (sleeprecord st)) h)
    as [Hl | Hl]; rewrite Hl, HL in Hci by reflexivity;
    [apply Ha | apply Hn]; symmetry; exact Hci.
Qed.

(** The letter case of the query parameters does not matter: two values
    of [q], or two values of [status], that are not empty and that
    [str.lower] makes equal give the same readiness table, the same event
    table and the same device listing. *)
Theorem parameters_ignore_case (st : Store) (q q' s s' : string) :
  q <> "" -> q' <> "" -> s <> "" -> s' <> "" ->
  Py.lower q = Py.lower q' -> Py.lower s = Py.lower s' ->
  Readiness.driver_readiness (Some q) (Some s) st
  = Readiness.driver_readiness (Some q') (Some s') st
  /\ Events.events_table (Some q) (Some s) st
     = Events.events_table (Some q') (Some s') st
  /\ Devices.devices_list (Some q) st = Devices.devices_list (Some q') st.
Proof.
  intros Nq Nq' Ns Ns' Hq Hs.
  unfold Readiness.driver_readiness, Events.events_table,
    Devices.devices_list.
  rewrite Hq, Hs.
  destruct q; [contradiction|]. destruct q'; [contradiction|].
  destruct s; [contradiction|]. destruct s'; [contradiction|].
  repeat split.
Qed.

End ReadinessStatuses.

(** ** More on the map and the device listing *)

(** The map reads the devices and the events only: two stores with the
    same devices and events give the same points, whatever their health
    records, sleep records and drivers are. *)
Theorem map_points_reads_devices_and_events (st st' : Store) :
  device st = device st' -> event st = event st' ->
  MapView.map_points st = MapView.map_points st'.
Proof.
  intros Hd He. unfold MapView.map_points.
  rewrite !get_documents_all.
  cbn [coll_docs device_c healthrecord_c event_c].
  rewrite Hd, He. f_equal.
Qed.

Lemma map_points_reads_devices_and_events_witness :
  MapView.map_points (seeded 0)
  = MapView.map_points Sample.seeded_without_health.
Proof.
  apply (map_points_reads_devices_and_events (seeded 0)
           Sample.seeded_without_health); reflexivity.
Defined.


(** A device of the store whose [device_id] and driver name are ASCII
    text is found by its own [device_id] and by its own driver name, in
    any letter case: it is among the rows that [list_devices] returns for
    that query.  [HL] is what [str.lower] does on ASCII text. *)
Theorem devices_list_finds_own_id_and_name {S : Py.Str}
    (HL : Py.lower_on_ascii) (st : Store) (d : Device.t) (q : string) :
  d ∈ device st ->
  Py.is_ascii (Device.device_id d +:+ " " +:+
               Py.or_empty (Device.driver_name d)) = true ->
  Spec.eq_ci q (Device.device_id d)
  \/ (exists name, Device.driver_name d = Some name /\ Spec.eq_ci q name) ->
  d ∈ map Devices.doc (items (Devices.devices_list (Some q) st)).
Proof.
  intros Hin Hascii Hq. rewrite devices_list_docs.
  apply elem_of_comprehension. split; [exact Hin|].
  unfold q_test. destruct (Py.truthy_str q); [|reflexivity].
  rewrite or_str_empty, (HL _ Hascii), !ascii_lower_app.
  rewrite !is_ascii_app, !andb_true_iff in Hascii.
  destruct Hascii as (Hid & _ & Hname).
  apply contains_spec. unfold Spec.eq_ci in Hq.
  destruct Hq as [Hq | (name & Hd & Hq)].
  - rewrite Hq, (HL _ Hid). exists "". eexists. reflexivity.
  - rewrite Hd, or_empty_some in *. rewrite Hq, (HL _ Hname).
    exists (Py.ascii_lower (Device.device_id d) +:+ Py.ascii_lower " "), "".
    now rewrite append_empty_r, append_assoc.
Qed.


(** ** Login *)
















(** ** Diagnostics *)

Lemma take_chars_spec (n : nat) (s : string) :
  (Py.char_count (Py.take_chars n s) <= n)%nat
  /\ String.prefix (Py.take_chars n s) s = true.
Proof.
  revert n. induction s as [|c s IH]; intros n; [split; [cbn; lia | reflexivity]|].
  cbn [Py.take_chars]. destruct (Py.is_continuation c) eqn:Ec.
  - destruct (IH n) as [H1 H2]. cbn [Py.char_count]. rewrite Ec.
    split; [exact H1|]. cbn [String.prefix].
    destruct (ascii_dec c c) as [_|Hc]; [exact H2 | now contradict Hc].
  - destruct n as [|n]; [split; [cbn; lia | reflexivity]|].
    destruct (IH n) as [H1 H2]. cbn [Py.char_count]. rewrite Ec.
    split; [lia|]. cbn [String.prefix].
    destruct (ascii_dec c c) as [_|Hc]; [exact H2 | now contradict Hc].
Qed.

(** A text of at most [n] characters is not cut. *)
Lemma take_chars_short (n : nat) (s : string) :
  (Py.char_count s <= n)%nat -> Py.take_chars n s = s.
Proof.
  revert n. induction s as [|c s IH]; intros n; [reflexivity|].
  cbn [Py.take_chars Py.char_count].
  destruct (Py.is_continuation c).
  - intros H. now rewrite IH.
  - destruct n as [|n]; [lia|]. intros H. rewrite IH by lia. reflexivity.
Qed.

(** The cut counts characters, not bytes. *)
Example take_chars_counts_characters :
  Py.take_chars 2 "ééé" = "éé" /\ Py.char_count "ééé" = 3%nat
  /\ String.length "ééé" = 6%nat.
Proof. repeat split. Qed.

Lemma truthy_spec (x : option string) :
  Py.truthy x = true <-> exists v, x = Some v /\ v <> "".
Proof.
  destruct x as [[|c v]|]; cbn [Py.truthy Py.truthy_str]; split;
    try discriminate.
  - intros (v & [= <-] & Hv). now contradict Hv.
  - intros _. eexists. split; [reflexivity | discriminate].
  - reflexivity.
  - intros (v & Hv & _). discriminate Hv.
Qed.


(** [test_database] always answers: the backend is reported as running;
    the connection status is "Connected" exactly when there is a [db]
    object whose [name] can be asked for; at most ten collection names
    are listed, the first ones that [list_collection_names] gave, and none
    when it failed, when asking for the name failed or when there is no
    [db]; the text of a failure is cut to its first 50 characters; and
    each of the two environment variables is reported as set exactly when
    it has a value that is not empty. *)
Theorem test_database_report (db : option System.Db)
    (getenv : string -> option string) :
  let r := System.test_database db getenv in
  System.backend r = "✅ Running"
  /\ (System.connection_status r = "Connected" <->
        exists d o, db = Some d /\ System.name d = inr o)
  /\ (length (System.collections r) <= 10)%nat
  /\ match db with
     | Some d =>
         match System.name d with
         | inl e =>
             System.collections r = []
             /\ System.database r = "❌ Error: " +:+ Py.take_chars 50 e
         | inr _ =>
             match System.list_collection_names d with
             | inr names =>
                 System.collections r = take 10 names
                 /\ System.database r = "✅ Connected & Working"
             | inl e =>
                 System.collections r = []
                 /\ System.database r
                    = "⚠️  Connected but Error: " +:+ Py.take_chars 50 e
             end
         end
     | None =>
         System.collections r = []
         /\ System.database r = "⚠️  Available but not initialized"
     end
  /\ (forall e, (Py.char_count (Py.take_chars 50 e) <= 50)%nat
                /\ String.prefix (Py.take_chars 50 e) e = true
                /\ ((Py.char_count e <= 50)%nat -> Py.take_chars 50 e = e))
  /\ (System.database_url r = "✅ Set" <->
        exists v, getenv "DATABASE_URL" = Some v /\ v <> "")
  /\ (System.database_name r = "✅ Set" <->
        exists v, getenv "DATABASE_NAME" = Some v /\ v <> "").
Proof.
  cbv zeta. unfold System.test_database.
  assert (Henv : forall k,
            (if Py.truthy (getenv k) then "✅ Set" else "❌ Not Set")
            = "✅ Set"
            <-> exists v, getenv k = Some v /\ v <> "").
  { intros k. rewrite <- truthy_spec.
    destruct (Py.truthy (getenv k)); split;
      first [reflexivity | discriminate]. }
  assert (Hcut : forall e,
            (Py.char_count (Py.take_chars 50 e) <= 50)%nat
            /\ String.prefix (Py.take_chars 50 e) e = true
            /\ ((Py.char_count e <= 50)%nat -> Py.take_chars 50 e = e)).
  { intros e. destruct (take_chars_spec 50 e) as [H1 H2].
    split; [exact H1|]. split; [exact H2 | apply take_chars_short]. }
  destruct db as [d|];
    [destruct (System.name d) as [e|o] eqn:En;
       [|destruct (System.list_collection_names d) as [e|names]]|];
    cbn [System.backend System.connection_status System.collections
         System.database System.database_url System.database_name];
    (split; [reflexivity|]).
  - split; [split; [discriminate|]|].
    { intros (d' & o & [= <-] & Hn). congruence. }
    split; [cbn; lia|]. split; [split; reflexivity|].
    split; [exact Hcut|]. split; apply Henv.
  - split; [split; [intros _; eauto | reflexivity]|].
    split; [cbn; lia|]. split; [split; reflexivity|].
    split; [exact Hcut|]. split; apply Henv.
  - split; [split; [intros _; eauto | reflexivity]|].
    split; [rewrite length_take; lia|]. split; [split; reflexivity|].
    split; [exact Hcut|]. split; apply Henv.
  - split; [split; [discriminate|]|].
    { intros (d' & o & Hd & _). discriminate Hd. }
    split; [cbn; lia|]. split; [split; reflexivity|].
    split; [exact Hcut|]. split; apply Henv.
Qed.

(** ** ECG waveform *)

(** Whatever the device and the clock, [device_ecg] returns 60 samples,
    one for each index from 0 to 59 in that order.  Their values are
    binary64 computations through [math.sin] and are not characterised
    here. *)
Lemma device_ecg_samples {M : Ecg.Math} (now : datetime)
    (device_id : string) :
  length (Ecg.samples (Ecg.device_ecg now device_id)) = 60%nat
  /\ Ecg.samples (Ecg.device_ecg now device_id)
     = map (fun i => Ecg.int (Ecg.wave i)) (Py.range 60)
  /\ Py.range 60 = map Z.of_nat (seq 0 60).
Proof.
  unfold Ecg.device_ecg. cbn [Ecg.samples].
  split; [|split; reflexivity].
  unfold Py.range. now rewrite !length_map, length_seq.
Qed.


(* ------------------------------------------------------------------ *)
(** * Counterexamples to the filters as first stated *)



(* ------------------------------------------------------------------ *)
(** * The statements on ASCII text *)

Section OnAsciiText.

(** The string library restricted to what it does on ASCII text. *)
#[local] Existing Instance Py.ascii_str.

Lemma readiness_without_sleep_record_witness :
  exists r,
    items (Readiness.driver_readiness None None Sample.health_only) !! 0%nat
    = Some r
    /\ Readiness.last_sleep_score r = None
    /\ (Readiness.status r = "approved" <-> 118 < 140 /\ 78 < 90).
Proof.
  apply (readiness_without_sleep_record Sample.health_only 0 (Seed.hr2 0)).
  - reflexivity.
  - intros s Hs. inversion Hs.
Defined.



(** The listing of the seeded store under that query. *)
Example devices_list_with_space :
  map (fun r => (Device.device_id (Devices.doc r), Devices.no r))
    (items (Devices.devices_list (Some "1001 budi") (seeded 0)))
  = [("DEV-1001", 1)].
Proof. vm_compute. reflexivity. Qed.

(** Case is ignored on both sides of the two readiness filters. *)
Example readiness_filters_ignore_case :
  map Readiness.driver_name
    (items (Readiness.driver_readiness (Some "SITI") (Some "Approved")
              (seeded 0)))
  = ["Siti Aminah"].
Proof. reflexivity. Qed.

Example login_name :
  Auth.name (Auth.login {| Auth.email := "budi.santoso@fleet.id";
                           Auth.password := "x" |})
  = "Budi.Santoso".
Proof. reflexivity. Qed.

Lemma events_table_rows_and_filters_witness :
  Spec.Filtered (Spec.events_keep (Some "siti") (Some "sos"))
    (items (Events.events_table None None (seeded 0)))
    (items (Events.events_table (Some "siti") (Some "sos") (seeded 0))).
Proof.
  exact (proj2 (events_table_rows_and_filters ascii_str_lower_on_ascii
                  (seeded 0) (Some "siti") (Some "sos"))).
Defined.

Lemma events_table_by_kind_witness :
  items (Events.events_table None (Some "sos") (seeded 0))
  = map Events.make_row
      (filter (fun e => Event.status_event e = Event.SOS)
         (event (seeded 0))).
Proof.
  apply (events_table_by_kind ascii_str_lower_on_ascii (seeded 0)
           Event.SOS "sos").
  reflexivity.
Defined.

Lemma approved_rows_are_not_high_bp_witness :
  Py.len (items (Readiness.driver_readiness None (Some "approved")
                   (seeded 0)))
  + Summary.high_bp_count
      (Summary.dashboard_summary 0 140 90 60 360 (seeded 0))
  <= Py.len (healthrecord (seeded 0)).
Proof.
  exact (approved_rows_are_not_high_bp ascii_str_lower_on_ascii 0 60 360
           (seeded 0)).
Defined.

Lemma readiness_statuses_partition_witness :
  Py.len (items (Readiness.driver_readiness (Some "s") (Some "approved")
                   (seeded 0)))
  + Py.len (items (Readiness.driver_readiness (Some "s")
                     (Some "not approved") (seeded 0)))
  = Py.len (items (Readiness.driver_readiness (Some "s") None (seeded 0))).
Proof.
  exact (readiness_statuses_partition ascii_str_lower_on_ascii (seeded 0)
           (Some "s")).
Defined.

Lemma readiness_unknown_status_is_empty_witness :
  items (Readiness.driver_readiness None (Some "pending") (seeded 0)) = [].
Proof.
  apply (readiness_unknown_status_is_empty ascii_str_lower_on_ascii
           (seeded 0) None "pending"); discriminate.
Defined.

Lemma parameters_ignore_case_witness :
  Readiness.driver_readiness (Some "BUDI") (Some "Not Approved") (seeded 0)
  = Readiness.driver_readiness (Some "budi") (Some "not approved")
      (seeded 0).
Proof.
  apply (parameters_ignore_case (seeded 0) "BUDI" "budi" "Not Approved"
           "not approved"); first [discriminate | reflexivity].
Defined.

Lemma devices_list_finds_own_id_and_name_witness :
  Seed.dev2
  ∈ map Devices.doc (items (Devices.devices_list (Some "SITI AMINAH")
                              (seeded 0))).
Proof.
  apply (devices_list_finds_own_id_and_name ascii_str_lower_on_ascii
           (seeded 0) Seed.dev2 "SITI AMINAH").
  - right. left.
  - reflexivity.
  - right. exists "Siti Aminah". split; reflexivity.
Defined.


End OnAsciiText.
